(** * EdTech support agent: keyword classifier and escalation rules

    A shallow embedding of [ai_support_agent/config/settings.py],
    [ai_support_agent/llm/classify.py],
    [ai_support_agent/rules/escalation.py],
    [ai_support_agent/llm/reply.py] and the endpoints of
    [ai_support_agent/app.py].

    Conventions of the embedding.
    - A Python [str] is a [string]; [str.lower] is lower-casing of the
      letters A-Z and [len] is [String.length], so the model covers the
      texts whose characters are single bytes.  Every length in a
      statement is the length of the lower-cased text, as [len(text)] is
      in the code; nothing relies on lower-casing keeping the length.
    - A Python [float] is a primitive binary64 [float]; the comparisons
      and additions are the IEEE ones the interpreter performs.
    - A Python [int] is a [Z].
    - The classification [dict] is a record of optional, typed entries
      (a key is present or absent); the Python value handed to the rules
      is an [option] of it, [None] being Python's [None].
    - A raised exception is the [Raise] branch of [pyresult].
    - [datetime.now().isoformat()] is an argument of the endpoint that
      reads the clock. *)

From Stdlib Require Import String Ascii List ZArith Lia Bool Floats DecimalString.
From Stdlib Require Uint63.
Import ListNotations.

Set Warnings "-inexact-float".

Local Open Scope string_scope.

(** ** Python built-ins used by the sources *)

Module Py.

(** [c.lower()] on one character. *)
Definition lower_ascii (c : ascii) : ascii :=
  let n := nat_of_ascii c in
  if andb (Nat.leb 65 n) (Nat.leb n 90) then ascii_of_nat (n + 32) else c.

(** [s.lower()]. *)
Fixpoint lower (s : string) : string :=
  match s with
  | EmptyString => EmptyString
  | String c rest => String (lower_ascii c) (lower rest)
  end.

(** [kw in s]: [kw] occurs in [s] as a contiguous substring. *)
Fixpoint contains (kw s : string) : bool :=
  if String.prefix kw s then true
  else match s with
       | EmptyString => false
       | String _ rest => contains kw rest
       end.

(** [any(kw in s for kw in kws)]. *)
Definition any_in (kws : list string) (s : string) : bool :=
  existsb (fun kw => contains kw s) kws.

(** [sum(1 for kw in kws if kw in s)]. *)
Definition count_in (kws : list string) (s : string) : nat :=
  List.length (filter (fun kw => contains kw s) kws).

(** [str(n)] for an [int]. *)
Definition str_of_int (n : Z) : string :=
  NilZero.string_of_int (Z.to_int n).

(** Nearest integer to [a * 2^e], ties to the even one. *)
Definition round_half_even (a e : Z) : Z :=
  if (0 <=? e)%Z then (a * 2 ^ e)%Z
  else
    let d := (2 ^ (- e))%Z in
    let q := (a / d)%Z in
    let r := (a mod d)%Z in
    match (2 * r ?= d)%Z with
    | Lt => q
    | Gt => (q + 1)%Z
    | Eq => if Z.even q then q else (q + 1)%Z
    end.

Definition two_digits (n : Z) : string :=
  if (n <? 10)%Z then "0" ++ str_of_int n else str_of_int n.

(** [f"{x:.2f}"]: the decimal with two fractional digits nearest to
    the exact value of [x]. *)
Definition format_2f (x : float) : string :=
  match Prim2SF x with
  | S754_nan => "nan"
  | S754_infinity s => if s then "-inf" else "inf"
  | S754_zero s => if s then "-0.00" else "0.00"
  | S754_finite s m e =>
      let n := round_half_even (Z.pos m * 100) e in
      (if s then "-" else "") ++
      str_of_int (n / 100) ++ "." ++ two_digits (n mod 100)
  end.

(** [min(x, y)]: the first argument unless the second is smaller. *)
Definition min (x y : float) : float :=
  if PrimFloat.ltb y x then y else x.

(** Exceptions the modelled code can raise. *)
Inductive exn : Type :=
| AttributeError.

Inductive pyresult (A : Type) : Type :=
| Ok (a : A)
| Raise (e : exn).
Arguments Ok {A} a.
Arguments Raise {A} e.

Definition bind {A B : Type} (r : pyresult A) (k : A -> pyresult B)
  : pyresult B :=
  match r with
  | Ok a => k a
  | Raise e => Raise e
  end.

End Py.

Notation "x <- r ;; k" := (Py.bind r (fun x => k))
  (at level 61, r at next level, right associativity).

(** ** config/settings.py *)

Module Settings.

(** [SUPPORT_CATEGORIES]: category name to its ["sub_categories"] list,
    in declaration order. *)
Definition SUPPORT_CATEGORIES : list (string * list string) :=
  [ ("Technical Issues",
      ["Platform Access"; "Video Playback"; "Course Materials";
       "Account Login"; "Browser Compatibility"]);
    ("Payment & Billing",
      ["Refund Request"; "Payment Failed"; "Invoice"; "Subscription";
       "Course Pricing"]);
    ("Course Content",
      ["Course Completion"; "Certificate"; "Curriculum";
       "Course Duration"; "Content Quality"]);
    ("Account Management",
      ["Profile Update"; "Password Reset"; "Account Deletion";
       "Email Change"; "Two Factor Auth"]);
    ("General Queries",
      ["Inquiry"; "Suggestion"; "Feedback"; "Other"]) ].

Definition LEGAL_KEYWORDS : list string :=
  ["legal"; "lawsuit"; "attorney"; "lawyer";
   "compliance"; "court"; "dispute"; "contract"].

Definition REFUND_KEYWORDS : list string :=
  ["refund"; "money back"; "reimbursement"; "return";
   "charge back"; "refund request"; "cancel subscription";
   "get my money back"; "refund my payment"].

(** [ESCALATION_THRESHOLDS["repeated_contact_count"]]; the key is
    present, so the [.get] default is never used. *)
Definition repeated_contact_count : Z := 2.

Definition HIGH_URGENCY_KEYWORDS : list string :=
  ["urgent"; "asap"; "immediately"; "critical"; "emergency";
   "cannot access"; "broken"; "not working"; "error"; "failed"].

Definition MEDIUM_URGENCY_KEYWORDS : list string :=
  ["important"; "soon"; "need"; "issue"; "problem"; "help"].

Definition POSITIVE_KEYWORDS : list string :=
  ["great"; "excellent"; "amazing"; "love"; "perfect"; "wonderful";
   "thank you"; "thanks"; "appreciate"; "satisfied"].

Definition NEGATIVE_KEYWORDS : list string :=
  ["bad"; "terrible"; "awful"; "hate"; "worst"; "problem";
   "issue"; "broken"; "error"; "frustrated"; "angry"].

End Settings.

(** ** The classification dict *)

(** The dict built by [EmailClassifier.classify] and read by
    [EscalationRules]; an entry is [None] when its key is absent. *)
Record classification : Type := mkClassification {
  category : option string;
  sub_category : option string;
  urgency : option string;
  sentiment : option string;
  confidence : option float;
  escalate_to_human : option bool
}.

Module Dict.

(** [d.get(key, default)]. *)
Definition get {A : Type} (entry : option A) (default : A) : A :=
  match entry with
  | Some v => v
  | None => default
  end.

(** [d[key]] / [key in d] on a dict written as a list of items. *)
Fixpoint lookup {V : Type} (key : string) (items : list (string * V))
  : option V :=
  match items with
  | [] => None
  | (k, v) :: rest => if String.eqb key k then Some v else lookup key rest
  end.

(** A dict with no key at all. *)
Definition is_empty (d : classification) : bool :=
  match category d, sub_category d, urgency d,
        sentiment d, confidence d, escalate_to_human d with
  | None, None, None, None, None, None => true
  | _, _, _, _, _, _ => false
  end.

(** Evaluating [c.get] on the value: [None] has no attribute [get]. *)
Definition deref (c : option classification) : Py.pyresult classification :=
  match c with
  | Some d => Py.Ok d
  | None => Py.Raise Py.AttributeError
  end.

End Dict.

(** ** llm/classify.py *)

Module EmailClassifier.

(** [self.categories], set by [__init__]. *)
Definition categories : list (string * list string) :=
  Settings.SUPPORT_CATEGORIES.

Definition _classify_category (text : string) : string :=
  let text_lower := Py.lower text in
  if Py.any_in ["refund"; "payment"; "billing"; "invoice"; "price";
                "cost"; "charged"] text_lower
  then "Payment & Billing"
  else if Py.any_in ["cannot access"; "login"; "error"; "broken";
                     "not working"; "video"; "playback"; "platform"]
                    text_lower
  then "Technical Issues"
  else if Py.any_in ["certificate"; "completion"; "course"; "material";
                     "content"; "curriculum"] text_lower
  then "Course Content"
  else if Py.any_in ["password"; "account"; "profile"; "email"; "delete";
                     "two factor"; "verification"] text_lower
  then "Account Management"
  else "General Queries".

(** The local [mapping] of [_classify_sub_category], items in order. *)
Definition mapping : list (string * list (string * list string)) :=
  [ ("Technical Issues",
      [ ("Platform Access", ["cannot access"; "access denied"; "login"]);
        ("Video Playback", ["video"; "playback"; "cannot play"]);
        ("Course Materials", ["materials"; "content"; "download"]);
        ("Account Login", ["login"; "password"; "sign in"]);
        ("Browser Compatibility",
          ["browser"; "chrome"; "firefox"; "safari"]) ]);
    ("Payment & Billing",
      [ ("Refund Request", ["refund"; "return"; "money back"]);
        ("Payment Failed", ["payment failed"; "charge"; "declined"]);
        ("Invoice", ["invoice"; "receipt"; "bill"]);
        ("Subscription", ["subscription"; "renew"; "cancel"]);
        ("Course Pricing", ["price"; "cost"; "expensive"]) ]);
    ("Course Content",
      [ ("Course Completion", ["completion"; "finished"; "done"]);
        ("Certificate", ["certificate"; "proof"; "credential"]);
        ("Curriculum", ["curriculum"; "course structure"]);
        ("Course Duration", ["duration"; "long"; "hours"]);
        ("Content Quality", ["quality"; "content"; "material"]) ]);
    ("Account Management",
      [ ("Profile Update", ["profile"; "update"; "change"]);
        ("Password Reset", ["password"; "reset"; "forgot"]);
        ("Account Deletion", ["delete"; "remove"; "cancel account"]);
        ("Email Change", ["email"; "change email"]);
        ("Two Factor Auth", ["2fa"; "two factor"; "authentication"]) ]) ].

(** The [for sub_cat, keywords in ...items()] loop: the first item one
    of whose keywords occurs in the text. *)
Fixpoint first_sub_cat (items : list (string * list string))
                       (text_lower : string) : option string :=
  match items with
  | [] => None
  | (sub_cat, keywords) :: rest =>
      if Py.any_in keywords text_lower then Some sub_cat
      else first_sub_cat rest text_lower
  end.

Definition _classify_sub_category (category text : string) : string :=
  let text_lower := Py.lower text in
  match Dict.lookup category categories with
  | None => "Unknown"
  | Some sub_categories =>
      let found :=
        match Dict.lookup category mapping with
        | Some items => first_sub_cat items text_lower
        | None => None
        end in
      match found with
      | Some sub_cat => sub_cat
      | None =>
          match sub_categories with
          | first :: _ => first
          | [] => "Unknown"
          end
      end
  end.

Definition _classify_urgency (text : string) : string :=
  let text_lower := Py.lower text in
  if Py.any_in Settings.HIGH_URGENCY_KEYWORDS text_lower then "High"
  else if Py.any_in Settings.MEDIUM_URGENCY_KEYWORDS text_lower
  then "Medium"
  else "Low".

Definition _classify_sentiment (text : string) : string :=
  let text_lower := Py.lower text in
  let positive_count := Py.count_in Settings.POSITIVE_KEYWORDS text_lower in
  let negative_count := Py.count_in Settings.NEGATIVE_KEYWORDS text_lower in
  if Nat.ltb negative_count positive_count then "Positive"
  else if Nat.ltb positive_count negative_count then "Negative"
  else "Neutral".

Definition _calculate_confidence (text category : string) : float :=
  let confidence := 0.7%float in
  let confidence :=
    if negb (String.eqb category "General Queries")
    then (confidence + 0.15)%float else confidence in
  let confidence :=
    if Nat.ltb 100 (String.length text) then (confidence + 0.1)%float
    else if Nat.ltb 50 (String.length text) then (confidence + 0.05)%float
    else confidence in
  Py.min confidence 1.0%float.

Definition classify (subject body : string) : classification :=
  let text := Py.lower (subject ++ " " ++ body) in
  let category := _classify_category text in
  let sub_category := _classify_sub_category category text in
  let urgency := _classify_urgency text in
  let sentiment := _classify_sentiment text in
  let confidence := _calculate_confidence text category in
  let escalate_to_human :=
    orb (String.eqb urgency "High") (PrimFloat.ltb confidence 0.5) in
  {| category := Some category;
     sub_category := Some sub_category;
     urgency := Some urgency;
     sentiment := Some sentiment;
     confidence := Some confidence;
     escalate_to_human := Some escalate_to_human |}.

End EmailClassifier.

(** ** rules/escalation.py *)

Module EscalationRules.

Definition check_legal_threat (body : string) : bool :=
  let body_lower := Py.lower body in
  Py.any_in Settings.LEGAL_KEYWORDS body_lower.

Definition check_refund_demand (body : string) : bool :=
  let body_lower := Py.lower body in
  Py.any_in Settings.REFUND_KEYWORDS body_lower.

Definition check_angry_tone (sentiment : string) : bool :=
  String.eqb sentiment "Negative".

Definition check_repeated_contact (contact_count : Z) : bool :=
  let threshold := Settings.repeated_contact_count in
  (threshold <=? contact_count)%Z.

Definition check_high_urgency (urgency : string) : bool :=
  String.eqb urgency "High".

Definition check_medium_urgency (urgency : string) : bool :=
  String.eqb urgency "Medium".

(** The pair [(escalate, reason)]; [reason] is [None] for Python's
    [None].  [if not classification] holds for [None] and for [{}]. *)
Definition evaluate (c : option classification) (email_body : string)
                    (contact_count : Z) : bool * option string :=
  match c with
  | None => (true, Some "No classification provided")
  | Some d =>
      if Dict.is_empty d then (true, Some "No classification provided")
      else
        let urgency := Dict.get (urgency d) "Low" in
        let sentiment := Dict.get (sentiment d) "Neutral" in
        let confidence := Dict.get (confidence d) 0.0%float in
        (* RULE 6 and DEFAULT, reached when no rule above returns *)
        let rule6 :=
          if PrimFloat.ltb confidence 0.75 then (false, None)
          else (false, None) in
        (* RULE 1 *)
        if check_legal_threat email_body
        then (true, Some "Legal threat detected")
        (* RULE 2 *)
        else if check_refund_demand email_body
        then (true, Some "Refund demand detected")
        (* RULE 3 *)
        else if andb (check_high_urgency urgency)
                     (check_angry_tone sentiment)
        then
          if PrimFloat.leb 0.90 confidence
          then (true,
                Some ("High urgency + Negative sentiment (confidence: "
                      ++ Py.format_2f confidence ++ ")"))
          else (false, None)
        (* RULE 4 *)
        else if andb (check_medium_urgency urgency)
                     (check_angry_tone sentiment)
        then (false, None)
        (* RULE 5 *)
        else if check_repeated_contact contact_count
        then
          if andb (check_high_urgency urgency)
                  (check_angry_tone sentiment)
          then
            if PrimFloat.leb 0.85 confidence
            then (true,
                  Some ("Repeated contact ("
                        ++ Py.str_of_int contact_count
                        ++ ") + High urgency + Negative (confidence: "
                        ++ Py.format_2f confidence ++ ")"))
            else (false, None)
          else if andb (check_medium_urgency urgency)
                       (check_angry_tone sentiment)
          then (false, None)
          else rule6
        else rule6
  end.

Definition get_escalation_priority (c : option classification)
    (email_body : string) (contact_count : Z) : Py.pyresult string :=
  let '(escalate, reason) := evaluate c email_body contact_count in
  if negb escalate then Py.Ok "None"
  else
    d <- Dict.deref c ;;
    let urgency := Dict.get (urgency d) "Low" in
    let sentiment := Dict.get (sentiment d) "Neutral" in
    if check_legal_threat email_body then Py.Ok "Critical"
    else if check_refund_demand email_body then Py.Ok "Critical"
    else if andb (String.eqb urgency "High")
                 (String.eqb sentiment "Negative")
    then Py.Ok "High"
    else if (2 <=? contact_count)%Z then Py.Ok "Medium"
    else Py.Ok "Low".

(** The ["details"] dict of the summary. *)
Record details : Type := mkDetails {
  d_urgency : option string;
  d_sentiment : option string;
  d_confidence : option float;
  d_contact_count : Z;
  has_legal_threat : bool;
  has_refund_demand : bool
}.

(** The dict returned by [format_escalation_summary]. *)
Record summary : Type := mkSummary {
  should_escalate : bool;
  reason : option string;
  priority : string;
  s_details : details
}.

Definition format_escalation_summary (c : option classification)
    (email_body : string) (contact_count : Z) : Py.pyresult summary :=
  let '(escalate, reason) := evaluate c email_body contact_count in
  priority <- get_escalation_priority c email_body contact_count ;;
  d <- Dict.deref c ;;
  Py.Ok {| should_escalate := escalate;
           reason := reason;
           priority := priority;
           s_details :=
             {| d_urgency := urgency d;
                d_sentiment := sentiment d;
                d_confidence := confidence d;
                d_contact_count := contact_count;
                has_legal_threat := check_legal_threat email_body;
                has_refund_demand := check_refund_demand email_body |} |}.

End EscalationRules.

(** ** Statement vocabulary *)

(** [body] mentions one of [kws], case-insensitively. *)
Definition mentions (kws : list string) (body : string) : Prop :=
  exists kw, In kw kws /\ Py.contains kw (Py.lower body) = true.

(** A body with no legal-threat and no refund-demand keyword. *)
Definition plain_body (body : string) : Prop :=
  ~ mentions Settings.LEGAL_KEYWORDS body /\
  ~ mentions Settings.REFUND_KEYWORDS body.

(** The dict [{}]. *)
Definition empty_dict : classification :=
  {| category := None; sub_category := None; urgency := None;
     sentiment := None; confidence := None; escalate_to_human := None |}.

(** The dict [{"urgency": u, "sentiment": s, "confidence": c}]. *)
Definition signal_dict (u s : string) (c : float) : classification :=
  {| category := None; sub_category := None; urgency := Some u;
     sentiment := Some s; confidence := Some c;
     escalate_to_human := None |}.

(** The keyword groups that [_classify_category] tests, in the order in
    which it tests them. *)
Definition category_groups : list (string * list string) :=
  [ ("Payment & Billing",
      ["refund"; "payment"; "billing"; "invoice"; "price"; "cost";
       "charged"]);
    ("Technical Issues",
      ["cannot access"; "login"; "error"; "broken"; "not working";
       "video"; "playback"; "platform"]);
    ("Course Content",
      ["certificate"; "completion"; "course"; "material"; "content";
       "curriculum"]);
    ("Account Management",
      ["password"; "account"; "profile"; "email"; "delete"; "two factor";
       "verification"]) ].

(** First match wins: the name of the first group one of whose keywords
    occurs in the text. *)
Fixpoint first_group (groups : list (string * list string)) (text : string)
  : option string :=
  match groups with
  | [] => None
  | (name, kws) :: rest =>
      if Py.any_in kws text then Some name else first_group rest text
  end.

(** The category as the specification words it: first matching group in
    the fixed order, else "General Queries". *)
Definition category_by_priority (text : string) : string :=
  match first_group category_groups text with
  | Some name => name
  | None => "General Queries"
  end.

(** The confidence as the specification words it. *)
Definition specificity_bonus (category : string) : float :=
  if String.eqb category "General Queries" then 0%float else 0.15%float.

Definition length_bonus (len : nat) : float :=
  if Nat.ltb 100 len then 0.10%float
  else if Nat.ltb 50 len then 0.05%float
  else 0%float.

Definition unclamped_confidence (category : string) (len : nat) : float :=
  (0.70 + specificity_bonus category + length_bonus len)%float.

Definition clamped_confidence (category : string) (len : nat) : float :=
  let total := unclamped_confidence category len in
  if PrimFloat.ltb 1.0 total then 1.0%float else total.

(** ** Further built-ins, used by app.py *)

Module PyNum.

(** [float(n)] for an [int] below 2^53 (the counts of a batch). *)
Definition float_of_int (n : Z) : float :=
  PrimFloat.of_uint63 (Uint63.of_Z n).

(** [a / b] on two such [int]s, the divisor not zero. *)
Definition true_div (a b : Z) : float :=
  (float_of_int a / float_of_int b)%float.

(** [f"{x:.1f}"]. *)
Definition format_1f (x : float) : string :=
  match Prim2SF x with
  | S754_nan => "nan"
  | S754_infinity s => if s then "-inf" else "inf"
  | S754_zero s => if s then "-0.0" else "0.0"
  | S754_finite s m e =>
      let n := Py.round_half_even (Z.pos m * 10) e in
      (if s then "-" else "") ++
      Py.str_of_int (n / 10) ++ "." ++ Py.str_of_int (n mod 10)
  end.

(** [round(x, 2)]: the float nearest to the two-digit decimal nearest
    to [x].  Exact while that decimal times 100 is below 2^53, which
    covers every confidence. *)
Definition round2 (x : float) : float :=
  match Prim2SF x with
  | S754_finite s m e =>
      if (0 <=? e)%Z then x
      else
        let n := Py.round_half_even (Z.pos m * 100) e in
        let r := (float_of_int n / 100)%float in
        if s then (- r)%float else r
  | _ => x
  end.

(** [str(e)] of the exception that [None.get] raises. *)
Definition str_of_exn (e : Py.exn) : string :=
  match e with
  | Py.AttributeError => "'NoneType' object has no attribute 'get'"
  end.

End PyNum.

(** ** llm/reply.py *)

Module ReplyGenerator.

(** [self.templates], as returned by [_load_templates]: the items of
    each category in declaration order. *)
Definition templates : list (string * list (string * string)) :=
  [
    ("Technical Issues",
     [
      ("Platform Access",
        "Thank you for reaching out! We're sorry you're "
        ++ "experiencing access issues. Our technical team is looking "
        ++ "into this. Please try clearing your browser cache and "
        ++ "logging in again. If the issue persists, please reply with "
        ++ "your account details and we'll investigate immediately.");
      ("Video Playback",
        "Thank you for reporting the video playback issue. This is "
        ++ "often due to browser compatibility or internet speed. "
        ++ "Please try: 1) Using a different browser, 2) Clearing your "
        ++ "cache, or 3) Checking your internet connection. Let us "
        ++ "know if the issue continues!");
      ("Course Materials",
        "We appreciate you contacting us about the course "
        ++ "materials. You should be able to access all materials from "
        ++ "the course dashboard. If you're unable to download or view "
        ++ "materials, please verify your course enrollment status. "
        ++ "Contact us with your course name and we'll help!");
      ("Account Login",
        "Thank you for reaching out about login issues. Please try "
        ++ "resetting your password using the 'Forgot Password' link "
        ++ "on the login page. If you still can't access your account, "
        ++ "we're here to help - please provide your registered email "
        ++ "and account details.");
      ("Browser Compatibility",
        "Great question! Our platform works best on Chrome, "
        ++ "Firefox, Safari, and Edge (latest versions). If you're "
        ++ "using an older browser, please update it or try a "
        ++ "different browser. Let us know if this resolves your "
        ++ "issue!") ]);
    ("Payment & Billing",
     [
      ("Refund Request",
        "Thank you for contacting us about a refund. We have a "
        ++ "30-day money-back guarantee on all courses. Please reply "
        ++ "with your order ID and reason for the refund, and we'll "
        ++ "process it within 5-7 business days.");
      ("Payment Failed",
        "Sorry to hear your payment didn't go through! This can "
        ++ "happen due to various reasons. Please try: 1) Using a "
        ++ "different payment method, 2) Checking with your bank, or "
        ++ "3) Contacting us with your order details and we'll help "
        ++ "troubleshoot.");
      ("Invoice",
        "Thank you for requesting an invoice. Invoices are "
        ++ "automatically sent to your registered email after "
        ++ "purchase. You can also download invoices from your account "
        ++ "dashboard under 'Billing History'. Let us know if you need "
        ++ "any assistance!");
      ("Subscription",
        "Thank you for your question about subscriptions. You can "
        ++ "manage your subscription (renew or cancel) from your "
        ++ "account settings. If you need help, please contact us with "
        ++ "your subscription details and we'll assist you promptly.");
      ("Course Pricing",
        "We appreciate your interest in our courses! Our pricing "
        ++ "reflects the quality content and instructor expertise. We "
        ++ "regularly offer discounts and promotions - check your "
        ++ "email or visit our pricing page for current offers!") ]);
    ("Course Content",
     [
      ("Course Completion",
        "Great job working through the course! Once you've "
        ++ "completed all modules, you'll be able to access your "
        ++ "certificate. If you've completed everything and don't see "
        ++ "the option, please let us know the course name and we'll "
        ++ "verify your completion status.");
      ("Certificate",
        "Congratulations on completing the course! Your certificate "
        ++ "is available in your dashboard under 'My Certificates'. "
        ++ "You can download it as a PDF or share it directly. If you "
        ++ "don't see it, please ensure you've completed all required "
        ++ "modules.");
      ("Curriculum",
        "Thank you for your question about the course curriculum. "
        ++ "You can view the detailed curriculum on the course page "
        ++ "before enrolling. If you need more information about "
        ++ "specific topics or modules, feel free to ask and we'll "
        ++ "provide more details!");
      ("Course Duration",
        "The course duration varies by course and your learning "
        ++ "pace. Most courses can be completed in 4-8 weeks with 5-10 "
        ++ "hours per week. You'll have lifetime access to the "
        ++ "materials, so you can learn at your own speed. Let us know "
        ++ "if you need more details!");
      ("Content Quality",
        "We're committed to providing high-quality educational "
        ++ "content. Each course is created by industry experts and "
        ++ "regularly updated. If you have specific feedback or "
        ++ "suggestions, we'd love to hear it! Please share your "
        ++ "thoughts and we'll take them into consideration.") ]);
    ("Account Management",
     [
      ("Profile Update",
        "You can update your profile information by going to "
        ++ "Account Settings. Simply click on your profile picture in "
        ++ "the top-right corner and select 'Account Settings'. If you "
        ++ "need help with any specific field, let us know!");
      ("Password Reset",
        "To reset your password, click 'Forgot Password' on the "
        ++ "login page. You'll receive an email with reset "
        ++ "instructions. If you don't see the email, please check "
        ++ "your spam folder or contact us for assistance.");
      ("Account Deletion",
        "We're sorry to see you go! To delete your account, please "
        ++ "contact our support team with your request. Note that this "
        ++ "action is irreversible and you'll lose access to all "
        ++ "courses. We'd love to hear feedback on why you're leaving!");
      ("Email Change",
        "To change your email, go to Account Settings and update "
        ++ "your email address. You'll receive a confirmation email at "
        ++ "your new address. If you encounter any issues, please "
        ++ "contact us and we'll help you change it securely.");
      ("Two Factor Auth",
        "For added security, you can enable two-factor "
        ++ "authentication in your Account Settings. This adds an "
        ++ "extra layer of protection to your account. Once enabled, "
        ++ "you'll need to provide a code from your authenticator app "
        ++ "when logging in.") ]);
    ("General Queries",
     [
      ("default",
        "Thank you for reaching out to us! We appreciate your "
        ++ "inquiry. Our team will review your message and get back to "
        ++ "you within 24 hours. In the meantime, if you have any "
        ++ "urgent questions, please let us know!") ]) ].

Definition _get_template_reply (category : string) : option string :=
  match Dict.lookup category templates with
  | None => None
  | Some category_templates =>
      match Dict.lookup "default" category_templates with
      | Some reply => Some reply
      | None =>
          match category_templates with
          | (_, first) :: _ => Some first
          | [] => None
          end
      end
  end.

Definition _get_generic_reply (sentiment : string) : string :=
  if String.eqb sentiment "Negative" then
    "Thank you for reaching out. We sincerely apologize for any "
      ++ "inconvenience you've experienced. Our team is committed to "
      ++ "resolving this issue as quickly as possible. Please "
      ++ "provide us with more details and we'll prioritize your "
      ++ "case."
  else if String.eqb sentiment "Positive" then
    "Thank you so much for your kind message! We're thrilled "
      ++ "that you're having a great experience. If you have any "
      ++ "questions or need assistance, please don't hesitate to "
      ++ "reach out!"
  else
    "Thank you for contacting us. We appreciate your inquiry "
      ++ "and will get back to you shortly with a helpful response. "
      ++ "Please let us know if there's anything else we can assist "
      ++ "you with.".

(** The pair [(reply_text, source)]; [if reply:] is false for [None]
    and for the empty string. *)
Definition generate_with_fallback (subject body category sentiment : string)
  : string * string :=
  match _get_template_reply category with
  | Some reply =>
      if negb (String.eqb reply "") then (reply, "template")
      else (_get_generic_reply sentiment, "fallback")
  | None => (_get_generic_reply sentiment, "fallback")
  end.

End ReplyGenerator.

(** ** app.py *)

Module App.

Module EmailInput.
Record t : Type := mk {
  email_id : string;
  subject : string;
  body : string;
  contact_count : Z
}.
End EmailInput.

Module ClassificationResponse.
Record t : Type := mk {
  email_id : string;
  category : string;
  sub_category : string;
  urgency : string;
  sentiment : string;
  confidence : float;
  escalate_to_human : bool
}.
End ClassificationResponse.

(** [TicketResponse], also the shape of a ticket dict of a batch. *)
Module TicketResponse.
Record t : Type := mk {
  email_id : string;
  subject : string;
  category : string;
  sub_category : string;
  urgency : string;
  sentiment : string;
  confidence : float;
  status : string;
  escalate : bool;
  escalation_reason : option string;
  escalation_priority : option string;
  draft_reply : option string;
  processed_at : string
}.
End TicketResponse.

Module SummaryReport.
Record t : Type := mk {
  total_tickets : Z;
  auto_drafted : Z;
  escalated : Z;
  escalation_rate : string;
  urgency_breakdown : list (string * Z);
  sentiment_breakdown : list (string * Z);
  category_breakdown : list (string * Z)
}.
End SummaryReport.

(** What an endpoint answers: its value, or the [HTTPException] it
    raises. *)
Inductive response (A : Type) : Type :=
| Ok200 (a : A)
| HTTPException (status_code : Z) (detail : string).
Arguments Ok200 {A} a.
Arguments HTTPException {A} status_code detail.

(** [try: ... except Exception as e: raise HTTPException(400, prefix + str(e))]. *)
Definition handle {A : Type} (prefix : string) (r : Py.pyresult A)
  : response A :=
  match r with
  | Py.Ok a => Ok200 a
  | Py.Raise e => HTTPException 400 (prefix ++ PyNum.str_of_exn e)
  end.

Definition classify_email (email : EmailInput.t)
  : response ClassificationResponse.t :=
  handle "Classification error: "
    (let classification :=
       EmailClassifier.classify (EmailInput.subject email)
                                (EmailInput.body email) in
     Py.Ok
       {| ClassificationResponse.email_id := EmailInput.email_id email;
          ClassificationResponse.category :=
            Dict.get (category classification) "General Queries";
          ClassificationResponse.sub_category :=
            Dict.get (sub_category classification) "Unknown";
          ClassificationResponse.urgency :=
            Dict.get (urgency classification) "Low";
          ClassificationResponse.sentiment :=
            Dict.get (sentiment classification) "Neutral";
          ClassificationResponse.confidence :=
            Dict.get (confidence classification) 0.0%float;
          ClassificationResponse.escalate_to_human :=
            Dict.get (escalate_to_human classification) false |}).

(** The body shared, line for line, by [process_ticket], by
    [webhook_process_email] and by one turn of the loop of
    [batch_process]; [now] is the reading of [datetime.now().isoformat()]
    and [shown] is what is done to the confidence before it is stored
    (nothing in the two endpoints, [round(confidence, 2)] in the batch). *)
Definition ticket_of (email : EmailInput.t) (now : string)
    (shown : float -> float) : Py.pyresult TicketResponse.t :=
  let classification :=
    EmailClassifier.classify (EmailInput.subject email)
                             (EmailInput.body email) in
  let category := Dict.get (category classification) "General Queries" in
  let urgency := Dict.get (urgency classification) "Low" in
  let sentiment := Dict.get (sentiment classification) "Neutral" in
  let confidence := Dict.get (confidence classification) 0.0%float in
  escalation_summary <-
    EscalationRules.format_escalation_summary
      (Some classification) (EmailInput.body email)
      (EmailInput.contact_count email) ;;
  let escalate := EscalationRules.should_escalate escalation_summary in
  let escalation_reason := EscalationRules.reason escalation_summary in
  let escalation_priority :=
    Some (EscalationRules.priority escalation_summary) in
  let draft_reply :=
    if negb escalate
    then Some (fst (ReplyGenerator.generate_with_fallback
                      (EmailInput.subject email) (EmailInput.body email)
                      category sentiment))
    else None in
  let status :=
    if escalate then "Escalated to Human" else "Auto-Drafted" in
  Py.Ok
    {| TicketResponse.email_id := EmailInput.email_id email;
       TicketResponse.subject := EmailInput.subject email;
       TicketResponse.category := category;
       TicketResponse.sub_category :=
         Dict.get (sub_category classification) "Unknown";
       TicketResponse.urgency := urgency;
       TicketResponse.sentiment := sentiment;
       TicketResponse.confidence := shown confidence;
       TicketResponse.status := status;
       TicketResponse.escalate := escalate;
       TicketResponse.escalation_reason := escalation_reason;
       TicketResponse.escalation_priority := escalation_priority;
       TicketResponse.draft_reply := draft_reply;
       TicketResponse.processed_at := now |}.

Definition process_ticket (email : EmailInput.t) (now : string)
  : response TicketResponse.t :=
  handle "Processing error: " (ticket_of email now (fun c => c)).

Definition webhook_process_email (email : EmailInput.t) (now : string)
  : response TicketResponse.t :=
  handle "Processing error: " (ticket_of email now (fun c => c)).

(** An element of [results]: a ticket dict, or the dict
    [{"email_id": ..., "error": ..., "status": "Error"}]. *)
Inductive batch_entry : Type :=
| Ticket (t : TicketResponse.t)
| Error (email_id error : string).

(** The loop over [request.emails]; the [k]-th turn reads the clock as
    [now k]. *)
Fixpoint batch_results (emails : list EmailInput.t) (now : nat -> string)
    (k : nat) : list batch_entry :=
  match emails with
  | [] => []
  | email :: rest =>
      (match ticket_of email (now k) PyNum.round2 with
       | Py.Ok t => Ticket t
       | Py.Raise e =>
           Error (EmailInput.email_id email) (PyNum.str_of_exn e)
       end) :: batch_results rest now (S k)
  end.

(** [r.get("escalate", False)]. *)
Definition entry_escalate (r : batch_entry) : bool :=
  match r with
  | Ticket t => TicketResponse.escalate t
  | Error _ _ => false
  end.

(** [sum(1 for r in results if r.get("escalate", False))]. *)
Definition count_escalated (results : list batch_entry) : Z :=
  Z.of_nat (List.length (filter entry_escalate results)).

(** [d[key] = d.get(key, 0) + 1] on a dict kept in insertion order. *)
Fixpoint incr (key : string) (d : list (string * Z)) : list (string * Z) :=
  match d with
  | [] => [(key, (0 + 1)%Z)]
  | (k, v) :: rest =>
      if String.eqb key k then (k, (v + 1)%Z) :: rest
      else (k, v) :: incr key rest
  end.

(** One turn of the [for result in results] loop on the three
    breakdown dicts. *)
Definition tally (acc : list (string * Z) * list (string * Z)
                        * list (string * Z))
                 (result : batch_entry)
  : list (string * Z) * list (string * Z) * list (string * Z) :=
  let '(urgency_breakdown, sentiment_breakdown, category_breakdown) := acc in
  match result with
  | Error _ _ => acc
  | Ticket t =>
      (incr (TicketResponse.urgency t) urgency_breakdown,
       incr (TicketResponse.sentiment t) sentiment_breakdown,
       incr (TicketResponse.category t) category_breakdown)
  end.

(** The part of [batch_process] after the loop: the [SummaryReport] of
    [results]. *)
Definition summarize (results : list batch_entry) : SummaryReport.t :=
  let total := Z.of_nat (List.length results) in
  let escalated := count_escalated results in
  let auto_drafted := (total - escalated)%Z in
  let '(urgency_breakdown, sentiment_breakdown, category_breakdown) :=
    fold_left tally results ([], [], []) in
  {| SummaryReport.total_tickets := total;
     SummaryReport.auto_drafted := auto_drafted;
     SummaryReport.escalated := escalated;
     SummaryReport.escalation_rate :=
       if (0 <? total)%Z
       then PyNum.format_1f (PyNum.true_div escalated total * 100)%float
            ++ "%"
       else "0%";
     SummaryReport.urgency_breakdown := urgency_breakdown;
     SummaryReport.sentiment_breakdown := sentiment_breakdown;
     SummaryReport.category_breakdown := category_breakdown |}.

(** The dict [{"status": "success", "tickets": ..., "summary": ...}]. *)
Record batch_response : Type := mkBatch {
  batch_status : string;
  tickets : list batch_entry;
  summary : SummaryReport.t
}.

Definition batch_process (emails : list EmailInput.t) (now : nat -> string)
  : response batch_response :=
  handle "Batch processing error: "
    (let results := batch_results emails now 0 in
     Py.Ok {| batch_status := "success";
              tickets := results;
              summary := summarize results |}).

(** [GET /categories]. *)
Definition get_categories : list (string * list string) :=
  Settings.SUPPORT_CATEGORIES.

End App.

(** ** Vocabulary for the batch summary *)

(** The ticket dicts among [results], in order (the error dicts left
    out). *)
Definition tickets_of (results : list App.batch_entry)
  : list App.TicketResponse.t :=
  flat_map (fun r => match r with
                     | App.Ticket t => [t]
                     | App.Error _ _ => []
                     end) results.

(** The error dicts among [results]. *)
Definition errors_of (results : list App.batch_entry)
  : list App.batch_entry :=
  filter (fun r => match r with
                   | App.Ticket _ => false
                   | App.Error _ _ => true
                   end) results.

(** How many tickets carry the label [k] under the field [f]. *)
Definition count_label (f : App.TicketResponse.t -> string) (k : string)
    (results : list App.batch_entry) : Z :=
  Z.of_nat (List.length
              (filter (fun t => String.eqb (f t) k) (tickets_of results))).

(** [sum(d.values())]. *)
Definition total_of (d : list (string * Z)) : Z :=
  fold_right (fun kv acc => (snd kv + acc)%Z) 0%Z d.

(** The breakdown loop of [batch_process] seen on one of its three
    dicts, the one keyed by the field [f]. *)
Definition tally_by (f : App.TicketResponse.t -> string)
    (results : list App.batch_entry) (d : list (string * Z))
  : list (string * Z) :=
  fold_left (fun acc r => match r with
                          | App.Ticket t => App.incr (f t) acc
                          | App.Error _ _ => acc
                          end) results d.

(** The dict [d] counts, label by label, the tickets of [results] under
    the field [f]: one entry per label that occurs, holding the number
    of tickets that carry it. *)
Definition counts_labels (f : App.TicketResponse.t -> string)
    (results : list App.batch_entry) (d : list (string * Z)) : Prop :=
  (forall k,
     Dict.lookup k d
     = if (count_label f k results =? 0)%Z then None
       else Some (count_label f k results)) /\
  NoDup (map fst d) /\
  total_of d = Z.of_nat (List.length (tickets_of results)).

(** A ticket with its confidence passed through [round(., 2)]. *)
Definition with_rounded_confidence (t : App.TicketResponse.t)
  : App.TicketResponse.t :=
  {| App.TicketResponse.email_id := App.TicketResponse.email_id t;
     App.TicketResponse.subject := App.TicketResponse.subject t;
     App.TicketResponse.category := App.TicketResponse.category t;
     App.TicketResponse.sub_category := App.TicketResponse.sub_category t;
     App.TicketResponse.urgency := App.TicketResponse.urgency t;
     App.TicketResponse.sentiment := App.TicketResponse.sentiment t;
     App.TicketResponse.confidence :=
       PyNum.round2 (App.TicketResponse.confidence t);
     App.TicketResponse.status := App.TicketResponse.status t;
     App.TicketResponse.escalate := App.TicketResponse.escalate t;
     App.TicketResponse.escalation_reason :=
       App.TicketResponse.escalation_reason t;
     App.TicketResponse.escalation_priority :=
       App.TicketResponse.escalation_priority t;
     App.TicketResponse.draft_reply := App.TicketResponse.draft_reply t;
     App.TicketResponse.processed_at := App.TicketResponse.processed_at t |}.

(** * Facts about the built-ins *)

Section PyFacts.

Lemma lower_ascii_idem (c : ascii) :
  Py.lower_ascii (Py.lower_ascii c) = Py.lower_ascii c.
Proof. destruct c as [[] [] [] [] [] [] [] []]; reflexivity. Qed.

Lemma lower_idem (s : string) : Py.lower (Py.lower s) = Py.lower s.
Proof.
  induction s as [|c s IH]; simpl; [reflexivity|].
  now rewrite lower_ascii_idem, IH.
Qed.

Lemma lower_app (s t : string) :
  Py.lower (s ++ t) = Py.lower s ++ Py.lower t.
Proof. induction s as [|c s IH]; simpl; [reflexivity | now rewrite IH]. Qed.

Lemma prefix_iff (kw s : string) :
  String.prefix kw s = true <-> exists post, s = kw ++ post.
Proof.
  revert s; induction kw as [|a kw IH]; intros s.
  - split; [intros _; now exists s | intros _; now destruct s].
  - destruct s as [|b s]; simpl.
    + split; [discriminate | intros [post H]; discriminate].
    + destruct (Ascii.ascii_dec a b) as [->|Hab].
      * rewrite IH. split; intros [post H]; exists post.
        -- now rewrite H.
        -- now inversion H.
      * split; [discriminate|].
        intros [post H]. inversion H. congruence.
Qed.

Lemma contains_nil (kw : string) :
  Py.contains kw "" = String.prefix kw "".
Proof.
  change (Py.contains kw "")
    with (if String.prefix kw "" then true else false).
  now destruct (String.prefix kw "").
Qed.

Lemma contains_cons (kw : string) (c : ascii) (s : string) :
  Py.contains kw (String c s) =
  orb (String.prefix kw (String c s)) (Py.contains kw s).
Proof.
  change (Py.contains kw (String c s))
    with (if String.prefix kw (String c s) then true
          else Py.contains kw s).
  now destruct (String.prefix kw (String c s)).
Qed.

(** [contains] is substring occurrence. *)
Lemma contains_iff (kw s : string) :
  Py.contains kw s = true <-> exists pre post, s = pre ++ kw ++ post.
Proof.
  induction s as [|c s IH].
  - rewrite contains_nil, prefix_iff. split.
    + intros [post H]. now exists "", post.
    + intros [pre [post H]]. destruct pre; [|discriminate].
      now exists post.
  - rewrite contains_cons, orb_true_iff, prefix_iff, IH. split.
    + intros [[post H]|[pre [post H]]].
      * now exists "", post.
      * exists (String c pre), post. simpl. now rewrite H.
    + intros [pre [post H]]. destruct pre as [|c' pre]; simpl in H.
      * left. now exists post.
      * right. inversion H. eauto.
Qed.

Lemma append_assoc (a b c : string) : (a ++ b) ++ c = a ++ (b ++ c).
Proof. induction a as [|x a IH]; simpl; [reflexivity | now rewrite IH]. Qed.

(** A keyword of the body is a keyword of ["subject body"]. *)
Lemma contains_in_body (kw subject body : string) :
  Py.contains kw body = true ->
  Py.contains kw (subject ++ " " ++ body) = true.
Proof.
  rewrite !contains_iff. intros [pre [post ->]].
  exists (subject ++ " " ++ pre), post.
  now rewrite !append_assoc.
Qed.

(** A keyword found in the lower-cased body is found in the lower-cased
    "subject body" text. *)
Lemma keyword_of_body_in_text (kw subject body : string) :
  Py.contains kw (Py.lower body) = true ->
  Py.contains kw (Py.lower (subject ++ " " ++ body)) = true.
Proof.
  intros H. rewrite !lower_app. now apply contains_in_body.
Qed.

Lemma any_in_iff (kws : list string) (s : string) :
  Py.any_in kws s = true <->
  exists kw, In kw kws /\ Py.contains kw s = true.
Proof. unfold Py.any_in. apply existsb_exists. Qed.

Lemma any_in_false (kws : list string) (s : string) :
  Py.any_in kws s = false <->
  ~ exists kw, In kw kws /\ Py.contains kw s = true.
Proof.
  rewrite <- any_in_iff. destruct (Py.any_in kws s); split; intros H;
    try reflexivity; try discriminate; try congruence.
Qed.

(** ** Float comparisons *)

Lemma SFcompare_Lt_swap (x y : spec_float) :
  SFcompare x y = Some Lt -> SFcompare y x = Some Gt.
Proof.
  destruct x as [sx|sx| |sx mx ex], y as [sy|sy| |sy my ey]; simpl;
    try discriminate;
    try (destruct sx; simpl; congruence);
    try (destruct sy; simpl; congruence);
    try (destruct sx, sy; simpl; congruence).
  assert (A : PosDef.Pos.compare_cont Eq my mx
              = CompOpp (PosDef.Pos.compare_cont Eq mx my))
    by (symmetry; exact (Pos.compare_cont_antisym mx my Eq)).
  destruct sx, sy; try congruence; intros H; f_equal;
    injection H as H; rewrite (Z.compare_antisym ex ey);
    destruct (ex ?= ey)%Z eqn:He; simpl in *; try congruence;
    rewrite A;
    destruct (PosDef.Pos.compare_cont Eq mx my); simpl in *; congruence.
Qed.

(** [x < y] excludes [y <= x], on every float (NaN included). *)
Lemma ltb_not_leb (x y : float) :
  PrimFloat.ltb x y = true -> PrimFloat.leb y x = false.
Proof.
  rewrite ltb_spec, leb_spec. unfold SFltb, SFleb.
  destruct (SFcompare (Prim2SF x) (Prim2SF y)) as [[]|] eqn:H;
    try discriminate.
  intros _. now rewrite (SFcompare_Lt_swap _ _ H).
Qed.

End PyFacts.

(** * The escalation rules *)

Section Escalation.

Import EscalationRules.

Lemma check_legal_threat_iff (body : string) :
  check_legal_threat body = true <-> mentions Settings.LEGAL_KEYWORDS body.
Proof. unfold check_legal_threat, mentions. apply any_in_iff. Qed.

Lemma check_refund_demand_iff (body : string) :
  check_refund_demand body = true <-> mentions Settings.REFUND_KEYWORDS body.
Proof. unfold check_refund_demand, mentions. apply any_in_iff. Qed.

Lemma plain_body_checks (body : string) :
  plain_body body ->
  check_legal_threat body = false /\ check_refund_demand body = false.
Proof.
  intros [Hl Hr]. split.
  - destruct (check_legal_threat body) eqn:E; [|reflexivity].
    now apply check_legal_threat_iff in E.
  - destruct (check_refund_demand body) eqn:E; [|reflexivity].
    now apply check_refund_demand_iff in E.
Qed.

(** A dict holding the key ["urgency"] is not empty. *)
Lemma has_urgency_not_empty (d : classification) (u : string) :
  urgency d = Some u -> Dict.is_empty d = false.
Proof.
  intros H. unfold Dict.is_empty. rewrite H.
  now destruct (category d), (sub_category d).
Qed.

(** What is left of [evaluate] on a populated dict and a plain body. *)
Lemma evaluate_plain (d : classification) (body : string) (n : Z)
      (u s : string) (c : float) :
  urgency d = Some u -> sentiment d = Some s -> confidence d = Some c ->
  plain_body body ->
  evaluate (Some d) body n =
    if andb (check_high_urgency u) (check_angry_tone s)
    then
      if PrimFloat.leb 0.90 c
      then (true,
            Some ("High urgency + Negative sentiment (confidence: "
                  ++ Py.format_2f c ++ ")"))
      else (false, None)
    else (false, None).
Proof.
  intros Hu Hs Hc Hb. apply plain_body_checks in Hb as [Hl Hr].
  unfold evaluate.
  rewrite (has_urgency_not_empty d u Hu), Hl, Hr, Hu, Hs, Hc.
  cbn [Dict.get].
  destruct (check_high_urgency u && check_angry_tone s)%bool;
    [reflexivity|].
  destruct (check_medium_urgency u && check_angry_tone s)%bool;
    [reflexivity|].
  destruct (check_repeated_contact n), (PrimFloat.ltb c 0.75);
    reflexivity.
Qed.

(** The contact count never changes the decision: rule 5 can only be
    reached when rules 3 and 4 did not match, and then neither of its
    branches matches. *)
Lemma evaluate_ignores_contact_count
      (c : option classification) (body : string) (n m : Z) :
  evaluate c body n = evaluate c body m.
Proof.
  destruct c as [d|]; [|reflexivity].
  unfold evaluate.
  destruct (Dict.is_empty d); [reflexivity|].
  destruct (check_legal_threat body); [reflexivity|].
  destruct (check_refund_demand body); [reflexivity|].
  cbv zeta.
  destruct (check_high_urgency _ && check_angry_tone _)%bool;
    [reflexivity|].
  destruct (check_medium_urgency _ && check_angry_tone _)%bool;
    [reflexivity|].
  now destruct (check_repeated_contact n), (check_repeated_contact m).
Qed.

(** The repeated-contact reason of rule 5 is never produced. *)
Lemma repeated_contact_reason_unreachable
      (c : option classification) (body : string) (n : Z) (conf : float) :
  snd (evaluate c body n) <>
  Some ("Repeated contact (" ++ Py.str_of_int n
        ++ ") + High urgency + Negative (confidence: "
        ++ Py.format_2f conf ++ ")").
Proof.
  destruct c as [d|]; [|discriminate].
  unfold evaluate.
  destruct (Dict.is_empty d); [discriminate|].
  destruct (check_legal_threat body); [discriminate|].
  destruct (check_refund_demand body); [discriminate|].
  cbv zeta.
  destruct (check_high_urgency _ && check_angry_tone _)%bool.
  - destruct (PrimFloat.leb _ _); discriminate.
  - destruct (check_medium_urgency _ && check_angry_tone _)%bool;
      [discriminate|].
    destruct (check_repeated_contact n), (PrimFloat.ltb _ _);
      discriminate.
Qed.

(** [get_escalation_priority] on a dict, as a function of the decision. *)
Lemma priority_of_dict (d : classification) (body : string) (n : Z) :
  get_escalation_priority (Some d) body n =
    if negb (fst (evaluate (Some d) body n)) then Py.Ok "None"
    else if check_legal_threat body then Py.Ok "Critical"
    else if check_refund_demand body then Py.Ok "Critical"
    else if andb (String.eqb (Dict.get (urgency d) "Low") "High")
                 (String.eqb (Dict.get (sentiment d) "Neutral") "Negative")
    then Py.Ok "High"
    else if (2 <=? n)%Z then Py.Ok "Medium"
    else Py.Ok "Low".
Proof.
  unfold get_escalation_priority.
  destruct (evaluate (Some d) body n) as [esc r]. reflexivity.
Qed.

(** C1. The claim: with urgency High, sentiment Negative, confidence
    0.87, contact_count 2 and a body without legal or refund keywords,
    [evaluate] escalates under rule 5 and the priority is "High".
    The code at that input: rule 3 matches first and, 0.87 being below
    0.90, returns (False, None); the priority is "None". *)
Theorem repeated_contact_087_not_escalated :
  let d := signal_dict "High" "Negative" 0.87 in
  let body := "my course videos still will not load" in
  plain_body body /\
  PrimFloat.leb 0.85 0.87 = true /\
  evaluate (Some d) body 2 = (false, None) /\
  get_escalation_priority (Some d) body 2 = Py.Ok "None".
Proof.
  cbv zeta. split; [|split; [|split]].
  - split; intros [kw [Hin Hc]]; simpl in Hin;
      repeat (destruct Hin as [<-|Hin]; [vm_compute in Hc; discriminate|]);
      contradiction.
  - reflexivity.
  - vm_compute. reflexivity.
  - vm_compute. reflexivity.
Qed.

(** C2. The claim: for an absent classification every entry point
    returns normally.  The code: [evaluate] returns
    (True, "No classification provided"), but on [None] both
    [get_escalation_priority] and [format_escalation_summary] go on to
    call [classification.get] and raise AttributeError. *)
Theorem none_classification_entry_points (body : string) (n : Z) :
  evaluate None body n = (true, Some "No classification provided") /\
  get_escalation_priority None body n = Py.Raise Py.AttributeError /\
  format_escalation_summary None body n = Py.Raise Py.AttributeError.
Proof. repeat split. Qed.

(** The other falsy input, the dict with no key, does return. *)
Lemma empty_dict_entry_points (body : string) (n : Z) :
  evaluate (Some empty_dict) body n
    = (true, Some "No classification provided") /\
  exists p s,
    get_escalation_priority (Some empty_dict) body n = Py.Ok p /\
    p <> "None" /\
    format_escalation_summary (Some empty_dict) body n = Py.Ok s /\
    priority s = p.
Proof.
  split; [reflexivity|].
  unfold format_escalation_summary, get_escalation_priority.
  cbn [evaluate empty_dict Dict.is_empty category sub_category urgency
       sentiment confidence escalate_to_human negb Dict.deref Py.bind
       Dict.get].
  destruct (check_legal_threat body);
    [do 2 eexists; repeat split; discriminate|].
  destruct (check_refund_demand body);
    [do 2 eexists; repeat split; discriminate|].
  cbn. destruct (2 <=? n)%Z;
    do 2 eexists; repeat split; discriminate.
Qed.

(** C3 as stated fails on the dict with no key: [{}] is not None, yet
    [if not classification] holds for it, and the reason is the
    missing-classification one even though the body names an attorney. *)
Lemma legal_threat_empty_dict :
  let body := "This is a legal dispute, contacting my attorney" in
  mentions Settings.LEGAL_KEYWORDS body /\
  evaluate (Some empty_dict) body 1
    = (true, Some "No classification provided") /\
  evaluate (Some empty_dict) body 1
    <> (true, Some "Legal threat detected").
Proof.
  cbv zeta. split; [|split].
  - exists "legal". split; [simpl; tauto | vm_compute; reflexivity].
  - reflexivity.
  - discriminate.
Qed.

(** A dict differs from [{}] exactly when it holds a key. *)
Lemma not_empty_dict_iff (d : classification) :
  Dict.is_empty d = false <-> d <> empty_dict.
Proof.
  destruct d as [a b c e f g].
  destruct a, b, c, e, f, g; unfold Dict.is_empty, empty_dict; simpl;
    split; intros H; try reflexivity; try discriminate.
  exfalso. now apply H.
Qed.

(** C3 (amended). For every classification dict, every contact_count
    and every body that mentions a legal-threat keyword
    case-insensitively, [evaluate] escalates and
    [get_escalation_priority] returns "Critical", whatever the urgency,
    sentiment and confidence entries; the reason is exactly
    "Legal threat detected" unless the dict is [{}], for which it is
    "No classification provided". *)
Theorem legal_threat_always_critical
        (d : classification) (body : string) (n : Z) :
  mentions Settings.LEGAL_KEYWORDS body ->
  fst (evaluate (Some d) body n) = true /\
  get_escalation_priority (Some d) body n = Py.Ok "Critical" /\
  (d <> empty_dict ->
   evaluate (Some d) body n = (true, Some "Legal threat detected")) /\
  (d = empty_dict ->
   evaluate (Some d) body n = (true, Some "No classification provided")).
Proof.
  intros Hl. apply check_legal_threat_iff in Hl.
  destruct (Dict.is_empty d) eqn:Hd.
  - assert (E : evaluate (Some d) body n
                = (true, Some "No classification provided")).
    { unfold evaluate. now rewrite Hd. }
    split; [now rewrite E|].
    split; [rewrite priority_of_dict, E, Hl; reflexivity|].
    split; [|intros _; exact E].
    intros Hne. apply not_empty_dict_iff in Hne. congruence.
  - assert (E : evaluate (Some d) body n
                = (true, Some "Legal threat detected")).
    { unfold evaluate. now rewrite Hd, Hl. }
    split; [now rewrite E|].
    split; [rewrite priority_of_dict, E, Hl; reflexivity|].
    split; [intros _; exact E|].
    intros ->. discriminate Hd.
Qed.

Lemma legal_threat_always_critical_witness :
  let d := signal_dict "Low" "Positive" 0.2 in
  let body := "See you in COURT." in
  evaluate (Some d) body 3 = (true, Some "Legal threat detected") /\
  get_escalation_priority (Some d) body 3 = Py.Ok "Critical".
Proof.
  cbv zeta.
  destruct (legal_threat_always_critical
              (signal_dict "Low" "Positive" 0.2) "See you in COURT." 3)
    as (_ & Hp & Hr & _).
  - exists "court". split; [simpl; tauto | vm_compute; reflexivity].
  - split; [apply Hr; discriminate | exact Hp].
Defined.

(** C4. For every classification dict, body and contact_count,
    [get_escalation_priority] returns a priority, the summary carries
    that priority and the decision of [evaluate], the priority is "None"
    exactly when [evaluate] does not escalate, and otherwise it is one of
    Critical, High, Medium, Low. *)
Theorem priority_none_iff_not_escalated
        (d : classification) (body : string) (n : Z) :
  exists p s,
    get_escalation_priority (Some d) body n = Py.Ok p /\
    format_escalation_summary (Some d) body n = Py.Ok s /\
    priority s = p /\
    should_escalate s = fst (evaluate (Some d) body n) /\
    (p = "None" <-> fst (evaluate (Some d) body n) = false) /\
    (fst (evaluate (Some d) body n) = true ->
     In p ["Critical"; "High"; "Medium"; "Low"]).
Proof.
  assert (P : exists p,
             get_escalation_priority (Some d) body n = Py.Ok p /\
             (p = "None" <-> fst (evaluate (Some d) body n) = false) /\
             (fst (evaluate (Some d) body n) = true ->
              In p ["Critical"; "High"; "Medium"; "Low"])).
  { rewrite priority_of_dict.
    destruct (fst (evaluate (Some d) body n)); cbn [negb].
    - destruct (check_legal_threat body);
        [eexists; repeat split; try discriminate; simpl; tauto|].
      destruct (check_refund_demand body);
        [eexists; repeat split; try discriminate; simpl; tauto|].
      destruct (_ && _)%bool;
        [eexists; repeat split; try discriminate; simpl; tauto|].
      destruct (2 <=? n)%Z;
        eexists; repeat split; try discriminate; simpl; tauto.
    - eexists; repeat split; discriminate. }
  destruct P as (p & Hp & Hiff & Hin).
  unfold format_escalation_summary. rewrite Hp.
  destruct (evaluate (Some d) body n) as [esc r].
  cbn [Py.bind Dict.deref fst] in *.
  eexists; eexists; repeat split; try apply Hiff; try exact Hin.
Qed.

Lemma priority_none_iff_not_escalated_witness :
  exists p,
    get_escalation_priority
      (Some (signal_dict "High" "Negative" 0.95)) "nothing loads" 1
      = Py.Ok p /\
    In p ["Critical"; "High"; "Medium"; "Low"].
Proof.
  destruct (priority_none_iff_not_escalated
              (signal_dict "High" "Negative" 0.95) "nothing loads" 1)
    as (p & s & Hp & _ & _ & _ & _ & Hin).
  exists p. split; [exact Hp|]. apply Hin. vm_compute. reflexivity.
Defined.

(** C6. For every classification with urgency "High" and sentiment
    "Negative" whose confidence is below 0.90, with contact_count 1 and a
    body without legal-threat or refund-demand keywords, [evaluate]
    returns (False, None). *)
Theorem benefit_of_doubt_below_090
        (d : classification) (body : string) (c : float) :
  urgency d = Some "High" ->
  sentiment d = Some "Negative" ->
  confidence d = Some c ->
  PrimFloat.ltb c 0.90 = true ->
  plain_body body ->
  evaluate (Some d) body 1 = (false, None).
Proof.
  intros Hu Hs Hc Hlt Hb.
  rewrite (evaluate_plain d body 1 _ _ _ Hu Hs Hc Hb).
  cbn [check_high_urgency check_angry_tone].
  now rewrite (ltb_not_leb _ _ Hlt).
Qed.

Lemma benefit_of_doubt_below_090_witness :
  evaluate (Some (signal_dict "High" "Negative" 0.80))
           "the app is broken and I am angry" 1 = (false, None).
Proof.
  apply (benefit_of_doubt_below_090 _ _ 0.80); try reflexivity.
  split; intros [kw [Hin Hc]]; simpl in Hin;
    repeat (destruct Hin as [<-|Hin]; [vm_compute in Hc; discriminate|]);
    contradiction.
Defined.

(** C7. For every classification with urgency "Medium" and sentiment
    "Negative", any confidence, any contact_count and a body without
    legal-threat or refund-demand keywords, [evaluate] does not
    escalate. *)
Theorem medium_negative_never_escalates
        (d : classification) (body : string) (n : Z) (c : float) :
  urgency d = Some "Medium" ->
  sentiment d = Some "Negative" ->
  confidence d = Some c ->
  plain_body body ->
  evaluate (Some d) body n = (false, None).
Proof.
  intros Hu Hs Hc Hb.
  now rewrite (evaluate_plain d body n _ _ _ Hu Hs Hc Hb).
Qed.

Lemma medium_negative_never_escalates_witness :
  evaluate (Some (signal_dict "Medium" "Negative" 0.99))
           "I have a problem with my profile" 5 = (false, None).
Proof.
  apply (medium_negative_never_escalates _ _ _ 0.99); try reflexivity.
  split; intros [kw [Hin Hc]]; simpl in Hin;
    repeat (destruct Hin as [<-|Hin]; [vm_compute in Hc; discriminate|]);
    contradiction.
Defined.

End Escalation.

(** * The classifier *)

Section Classifier.

Import EmailClassifier.

Lemma first_group_some (groups : list (string * list string))
      (text name : string) :
  first_group groups text = Some name <->
  exists before kws after,
    groups = (before ++ (name, kws) :: after)%list /\
    Py.any_in kws text = true /\
    Forall (fun g => Py.any_in (snd g) text = false) before.
Proof.
  induction groups as [|[g kws] rest IH]; simpl.
  - split; [discriminate|].
    intros (before & k & after & H & _). now destruct before.
  - destruct (Py.any_in kws text) eqn:E.
    + split.
      * intros [= <-]. exists [], kws, rest. repeat split; auto.
      * intros (before & k & after & H & Hk & Hb).
        destruct before as [|b before]; simpl in H.
        -- now inversion H.
        -- inversion H; subst. inversion Hb; subst. simpl in *. congruence.
    + rewrite IH. split.
      * intros (before & k & after & -> & Hk & Hb).
        exists ((g, kws) :: before), k, after. repeat split; auto.
      * intros (before & k & after & H & Hk & Hb).
        destruct before as [|b before]; simpl in H.
        -- inversion H; subst. congruence.
        -- inversion H; subst. inversion Hb; subst.
           exists before, k, after. repeat split; auto.
Qed.

Lemma first_group_none (groups : list (string * list string))
      (text : string) :
  first_group groups text = None <->
  Forall (fun g => Py.any_in (snd g) text = false) groups.
Proof.
  induction groups as [|[g kws] rest IH]; simpl.
  - split; auto.
  - destruct (Py.any_in kws text) eqn:E.
    + split; [discriminate|]. intros H. inversion H; subst.
      simpl in *. congruence.
    + rewrite IH. split; [now constructor | now inversion 1].
Qed.

(** The if-chain of the source is the first-match search. *)
Lemma classify_category_by_priority (text : string) :
  _classify_category text = category_by_priority (Py.lower text).
Proof.
  unfold _classify_category, category_by_priority, category_groups.
  cbn [first_group].
  repeat (destruct (Py.any_in _ (Py.lower text)); [reflexivity|]).
  reflexivity.
Qed.

Lemma classify_category_cases (text : string) :
  In (_classify_category text) (map fst Settings.SUPPORT_CATEGORIES).
Proof.
  unfold _classify_category.
  repeat (destruct (Py.any_in _ (Py.lower text)); [simpl; tauto|]).
  simpl; tauto.
Qed.

(** C5. [classify] assigns the category by testing the keyword groups
    on the lower-cased "subject body" text in the order Payment &
    Billing, Technical Issues, Course Content, Account Management; the
    first group with a matching substring wins and the default is
    "General Queries".  A text with both "refund" and "login" is
    "Payment & Billing". *)
Theorem category_fixed_priority_order (subject body : string) :
  let text := Py.lower (subject ++ " " ++ body) in
  map fst category_groups
    = ["Payment & Billing"; "Technical Issues"; "Course Content";
       "Account Management"] /\
  category (classify subject body) = Some (category_by_priority text) /\
  (Py.contains "refund" text = true ->
   Py.contains "login" text = true ->
   category (classify subject body) = Some "Payment & Billing").
Proof.
  cbv zeta. split; [reflexivity|].
  assert (E : category (classify subject body)
              = Some (category_by_priority
                        (Py.lower (subject ++ " " ++ body)))).
  { unfold classify. cbn [category].
    now rewrite classify_category_by_priority, lower_idem. }
  split; [exact E|].
  intros Hr _. rewrite E. f_equal.
  unfold category_by_priority, category_groups. cbn [first_group].
  replace (Py.any_in _ _) with true; [reflexivity|].
  symmetry. apply any_in_iff. exists "refund". split; [simpl; tauto|].
  exact Hr.
Qed.

Lemma category_fixed_priority_order_witness :
  category (classify "Login trouble" "Please REFUND my order")
    = Some "Payment & Billing".
Proof.
  apply (category_fixed_priority_order
           "Login trouble" "Please REFUND my order");
    vm_compute; reflexivity.
Defined.

(** The source's running sum is the worded formula, for every category
    and length: the six sums are closed binary64 computations. *)
Lemma calculate_confidence_formula (text category : string) :
  _calculate_confidence text category
    = clamped_confidence category (String.length text).
Proof.
  unfold _calculate_confidence, clamped_confidence, unclamped_confidence,
    specificity_bonus, length_bonus, Py.min.
  destruct (String.eqb category "General Queries"),
    (Nat.ltb 100 (String.length text)),
    (Nat.ltb 50 (String.length text)); vm_compute; reflexivity.
Qed.

(** The clamp leaves every reachable sum unchanged. *)
Lemma clamp_never_binds (category : string) (len : nat) :
  clamped_confidence category len = unclamped_confidence category len /\
  PrimFloat.ltb 1.0 (unclamped_confidence category len) = false.
Proof.
  unfold clamped_confidence, unclamped_confidence, specificity_bonus,
    length_bonus.
  destruct (String.eqb category "General Queries"),
    (Nat.ltb 100 len), (Nat.ltb 50 len); vm_compute; split; reflexivity.
Qed.

Lemma unclamped_confidence_range (category : string) (len : nat) :
  PrimFloat.leb 0.70 (unclamped_confidence category len) = true /\
  PrimFloat.leb (unclamped_confidence category len) 0.95 = true.
Proof.
  unfold unclamped_confidence, specificity_bonus, length_bonus.
  destruct (String.eqb category "General Queries"),
    (Nat.ltb 100 len), (Nat.ltb 50 len); vm_compute; split; reflexivity.
Qed.

(** C8. The confidence returned by [classify] is 0.70, plus 0.15 when
    the category is not "General Queries", plus one length bonus on the
    lower-cased "subject body" text (0.10 above 100 characters, else 0.05
    above 50), clamped to at most 1.0; a category other than General
    gives at least 0.85, and at least 0.95 above 100 characters. *)
Theorem classify_confidence_formula (subject body : string) :
  let text := Py.lower (subject ++ " " ++ body) in
  exists cat c,
    category (classify subject body) = Some cat /\
    confidence (classify subject body) = Some c /\
    c = clamped_confidence cat (String.length text) /\
    PrimFloat.leb c 1.0 = true /\
    (cat <> "General Queries" -> PrimFloat.leb 0.85 c = true) /\
    (cat <> "General Queries" -> 100 < String.length text ->
     PrimFloat.leb 0.95 c = true).
Proof.
  cbv zeta.
  exists (_classify_category (Py.lower (subject ++ " " ++ body))).
  eexists. split; [reflexivity|]. split; [reflexivity|].
  rewrite calculate_confidence_formula.
  split; [reflexivity|].
  set (cat := _classify_category _). set (len := String.length _).
  unfold clamped_confidence, unclamped_confidence, specificity_bonus,
    length_bonus.
  destruct (String.eqb_spec cat "General Queries") as [Hc|Hc].
  - split; [|split; intros H; contradiction].
    destruct (Nat.ltb 100 len), (Nat.ltb 50 len); vm_compute; reflexivity.
  - split; [|split].
    + destruct (Nat.ltb 100 len), (Nat.ltb 50 len); vm_compute; reflexivity.
    + intros _.
      destruct (Nat.ltb 100 len), (Nat.ltb 50 len); vm_compute; reflexivity.
    + intros _ Hlen. apply Nat.ltb_lt in Hlen. rewrite Hlen.
      vm_compute; reflexivity.
Qed.

Lemma classify_confidence_formula_witness :
  exists c,
    confidence (classify "Video" "playback stops") = Some c /\
    PrimFloat.leb 0.85 c = true.
Proof.
  destruct (classify_confidence_formula "Video" "playback stops")
    as (cat & c & Hcat & Hc & _ & _ & H85 & _).
  exists c. split; [exact Hc|]. apply H85.
  vm_compute in Hcat. injection Hcat as <-. discriminate.
Defined.

(** C9. The confidence returned by [classify] lies in [0.70, 0.95]: the
    clamp never binds, 1.0 is not reached and the value is never below
    0.5, so the escalate_to_human flag is true exactly when the urgency
    is "High". *)
Theorem classify_confidence_range (subject body : string) :
  let text := Py.lower (subject ++ " " ++ body) in
  exists cat c u e,
    category (classify subject body) = Some cat /\
    confidence (classify subject body) = Some c /\
    urgency (classify subject body) = Some u /\
    escalate_to_human (classify subject body) = Some e /\
    PrimFloat.leb 0.70 c = true /\
    PrimFloat.leb c 0.95 = true /\
    c = unclamped_confidence cat (String.length text) /\
    PrimFloat.ltb 1.0 (unclamped_confidence cat (String.length text))
      = false /\
    PrimFloat.ltb c 1.0 = true /\
    PrimFloat.ltb c 0.5 = false /\
    (e = true <-> u = "High").
Proof.
  cbv zeta.
  exists (_classify_category (Py.lower (subject ++ " " ++ body))).
  do 3 eexists.
  do 4 (split; [reflexivity|]).
  rewrite calculate_confidence_formula.
  set (cat := _classify_category _). set (len := String.length _).
  destruct (clamp_never_binds cat len) as [-> Hclamp].
  destruct (unclamped_confidence_range cat len) as [Hlo Hhi].
  assert (H : PrimFloat.ltb (unclamped_confidence cat len) 1.0 = true /\
              PrimFloat.ltb (unclamped_confidence cat len) 0.5 = false).
  { unfold unclamped_confidence, specificity_bonus, length_bonus.
    destruct (String.eqb cat "General Queries"),
      (Nat.ltb 100 len), (Nat.ltb 50 len); vm_compute; split; reflexivity. }
  destruct H as [H1 H05].
  repeat (split; [assumption || reflexivity|]).
  rewrite H05, orb_false_r. apply String.eqb_eq.
Qed.

Lemma first_sub_cat_in (items : list (string * list string))
      (text sub : string) :
  first_sub_cat items text = Some sub -> In sub (map fst items).
Proof.
  induction items as [|[name kws] rest IH]; simpl; [discriminate|].
  destruct (Py.any_in kws text); [intros [= <-]; now left | auto].
Qed.

(** Every sub-category named in [mapping] is declared for its category
    in [SUPPORT_CATEGORIES], and no declared list is empty. *)
Lemma mapping_within_declared (cat : string) (subs : list string) :
  Dict.lookup cat categories = Some subs ->
  subs <> [] /\
  ~ In "" subs /\ ~ In "Unknown" subs /\
  forall items, Dict.lookup cat mapping = Some items ->
                incl (map fst items) subs.
Proof.
  unfold categories, Settings.SUPPORT_CATEGORIES, mapping.
  cbn [Dict.lookup].
  repeat (match goal with
          | |- context [String.eqb cat ?k] =>
              destruct (String.eqb_spec cat k) as [->|_]
          end;
          [intros [= <-]; repeat split;
           [discriminate
           |simpl; intros H; repeat (destruct H as [H|H]; [discriminate|]);
            exact H
           |simpl; intros H; repeat (destruct H as [H|H]; [discriminate|]);
            exact H
           |cbn; intros items Hi x Hx;
            (discriminate Hi || (injection Hi as <-; simpl in *; tauto))]
          |]).
  discriminate.
Qed.

Lemma lookup_of_key {V : Type} (key : string) (items : list (string * V)) :
  In key (map fst items) -> exists v, Dict.lookup key items = Some v.
Proof.
  induction items as [|[k v] rest IH]; simpl; [contradiction|].
  intros [->|H].
  - rewrite String.eqb_refl. eauto.
  - destruct (String.eqb key k); eauto.
Qed.

(** [_classify_sub_category] on a configured category. *)
Lemma classify_sub_category_declared (cat text : string)
      (subs : list string) :
  Dict.lookup cat categories = Some subs ->
  In (_classify_sub_category cat text) subs.
Proof.
  intros Hl. destruct (mapping_within_declared cat subs Hl)
    as (Hne & _ & _ & Hincl).
  unfold _classify_sub_category. rewrite Hl.
  destruct (Dict.lookup cat mapping) as [items|].
  - destruct (first_sub_cat items (Py.lower text)) as [sub|] eqn:E.
    + apply (Hincl items eq_refl). eapply first_sub_cat_in; eauto.
    + destruct subs; [congruence | now left].
  - destruct subs; [congruence | now left].
Qed.

(** C10. The sub_category returned by [classify] is one of the
    sub-categories declared for the returned category, which is one of
    the five configured ones; it is never the empty string and never
    "Unknown"; for "General Queries" it is "Inquiry", the first declared
    entry. *)
Theorem sub_category_declared (subject body : string) :
  exists cat sub subs,
    category (classify subject body) = Some cat /\
    sub_category (classify subject body) = Some sub /\
    In cat (map fst Settings.SUPPORT_CATEGORIES) /\
    Dict.lookup cat Settings.SUPPORT_CATEGORIES = Some subs /\
    In sub subs /\
    sub <> "" /\
    sub <> "Unknown" /\
    (cat = "General Queries" ->
     sub = "Inquiry" /\ hd_error subs = Some "Inquiry").
Proof.
  set (text := Py.lower (subject ++ " " ++ body)).
  pose proof (classify_category_cases text) as Hcat.
  destruct (lookup_of_key _ _ Hcat) as [subs Hl].
  exists (_classify_category text), (_classify_sub_category
                                       (_classify_category text) text), subs.
  pose proof (classify_sub_category_declared _ text subs Hl) as Hin.
  destruct (mapping_within_declared _ subs Hl) as (_ & He & Hu & _).
  do 5 (split; [reflexivity || assumption|]).
  split; [intros E; rewrite E in Hin; contradiction|].
  split; [intros E; rewrite E in Hin; contradiction|].
  intros Hg. revert Hl. rewrite Hg. intros [= <-].
  split; reflexivity.
Qed.

Lemma sub_category_declared_witness :
  sub_category (classify "Hello" "just saying hi") = Some "Inquiry".
Proof.
  destruct (sub_category_declared "Hello" "just saying hi")
    as (cat & sub & subs & Hcat & Hsub & _ & _ & _ & _ & _ & Hg).
  rewrite Hsub. f_equal. apply Hg.
  vm_compute in Hcat. now injection Hcat as <-.
Defined.

(** Sample runs of the classifier. *)
Example classify_refund_login :
  classify "Cannot LOGIN" "I was charged twice, please refund me ASAP"
  = {| category := Some "Payment & Billing";
       sub_category := Some "Refund Request";
       urgency := Some "High";
       sentiment := Some "Neutral";
       confidence := Some 0.9%float;
       escalate_to_human := Some true |}.
Proof. vm_compute. reflexivity. Qed.

Example format_2f_087 : Py.format_2f 0.87 = "0.87".
Proof. vm_compute. reflexivity. Qed.

Example format_2f_tie : Py.format_2f 0.125 = "0.12".
Proof. vm_compute. reflexivity. Qed.

Example lower_mixed : Py.lower "My ATTORNEY, 42!" = "my attorney, 42!".
Proof. reflexivity. Qed.

Example contains_inside : Py.contains "court" "see you in court." = true.
Proof. reflexivity. Qed.

End Classifier.

(** * Further properties of the escalation rules *)

Section EscalationMore.

Import EscalationRules.

(** [evaluate] on a dict with at least one key, rule by rule. *)
Lemma evaluate_cases (d : classification) (body : string) (n : Z) :
  Dict.is_empty d = false ->
  evaluate (Some d) body n =
    if check_legal_threat body then (true, Some "Legal threat detected")
    else if check_refund_demand body
    then (true, Some "Refund demand detected")
    else if andb (String.eqb (Dict.get (urgency d) "Low") "High")
                 (String.eqb (Dict.get (sentiment d) "Neutral") "Negative")
    then
      if PrimFloat.leb 0.90 (Dict.get (confidence d) 0.0%float)
      then (true,
            Some ("High urgency + Negative sentiment (confidence: "
                  ++ Py.format_2f (Dict.get (confidence d) 0.0%float)
                  ++ ")"))
      else (false, None)
    else (false, None).
Proof.
  intros Hd. unfold evaluate. rewrite Hd.
  destruct (check_legal_threat body); [reflexivity|].
  destruct (check_refund_demand body); [reflexivity|].
  cbv zeta. unfold check_high_urgency, check_angry_tone.
  destruct (_ && _)%bool; [reflexivity|].
  destruct (_ && _)%bool; [reflexivity|].
  destruct (check_repeated_contact n), (PrimFloat.ltb _ _); reflexivity.
Qed.

(** X1. On a dict with at least one key, [evaluate] escalates exactly
    when the body mentions a legal-threat keyword, or a refund-demand
    keyword, or the urgency is "High", the sentiment "Negative" and the
    confidence at least 0.90 (absent keys read as "Low", "Neutral" and
    0.0). *)
Theorem evaluate_escalates_iff (d : classification) (body : string) (n : Z) :
  Dict.is_empty d = false ->
  (fst (evaluate (Some d) body n) = true <->
   mentions Settings.LEGAL_KEYWORDS body \/
   mentions Settings.REFUND_KEYWORDS body \/
   (Dict.get (urgency d) "Low" = "High" /\
    Dict.get (sentiment d) "Neutral" = "Negative" /\
    PrimFloat.leb 0.90 (Dict.get (confidence d) 0.0%float) = true)).
Proof.
  intros Hd. rewrite (evaluate_cases d body n Hd).
  pose proof (check_legal_threat_iff body) as Hl.
  pose proof (check_refund_demand_iff body) as Hr.
  destruct (check_legal_threat body);
    [split; [intros _; left; now apply Hl | reflexivity]|].
  destruct (check_refund_demand body);
    [split; [intros _; right; left; now apply Hr | reflexivity]|].
  assert (NL : ~ mentions Settings.LEGAL_KEYWORDS body)
    by (intros H; apply Hl in H; discriminate).
  assert (NR : ~ mentions Settings.REFUND_KEYWORDS body)
    by (intros H; apply Hr in H; discriminate).
  destruct (String.eqb_spec (Dict.get (urgency d) "Low") "High") as [Hu|Hu];
    destruct (String.eqb_spec (Dict.get (sentiment d) "Neutral") "Negative")
      as [Hs|Hs]; cbn [andb];
    try (simpl; split; [discriminate|];
         intros [H|[H|(H1 & H2 & H3)]]; congruence || contradiction).
  destruct (PrimFloat.leb _ _); simpl.
  - split; auto.
  - split; [discriminate|].
    intros [H|[H|(H1 & H2 & H3)]]; congruence || contradiction.
Qed.

Lemma evaluate_escalates_iff_witness :
  fst (evaluate (Some (signal_dict "High" "Negative" 0.9))
                "the lessons never load" 1) = true.
Proof.
  apply (evaluate_escalates_iff (signal_dict "High" "Negative" 0.9));
    [reflexivity|].
  right; right. repeat split.
Defined.

(** X2. Whatever the classification value, [evaluate] gives a reason
    exactly when it escalates, and the reason is one of the three fixed
    sentences or the high-urgency sentence with the confidence of the
    classification (0.0 when the key is absent) printed to two
    decimals. *)
Theorem reason_present_iff_escalated
        (c : option classification) (body : string) (n : Z) :
  (fst (evaluate c body n) = true <-> snd (evaluate c body n) <> None) /\
  (forall r, snd (evaluate c body n) = Some r ->
     r = "No classification provided" \/
     r = "Legal threat detected" \/
     r = "Refund demand detected" \/
     exists d,
       c = Some d /\
       r = "High urgency + Negative sentiment (confidence: "
           ++ Py.format_2f (Dict.get (confidence d) 0.0%float) ++ ")").
Proof.
  destruct c as [d|].
  2:{ split; [split; [discriminate | reflexivity]|].
      intros r [= <-]. now left. }
  destruct (Dict.is_empty d) eqn:Hd.
  { unfold evaluate. rewrite Hd.
    split; [split; [discriminate | reflexivity]|].
    intros r [= <-]. now left. }
  rewrite (evaluate_cases d body n Hd).
  destruct (check_legal_threat body).
  { split; [split; [discriminate | reflexivity]|].
    intros r [= <-]. right. now left. }
  destruct (check_refund_demand body).
  { split; [split; [discriminate | reflexivity]|].
    intros r [= <-]. right. right. now left. }
  destruct (_ && _)%bool;
    [|split; [split; [discriminate | intros H; now elim H]|discriminate]].
  destruct (PrimFloat.leb _ _);
    [|split; [split; [discriminate | intros H; now elim H]|discriminate]].
  split; [split; [discriminate | reflexivity]|].
  intros r [= <-]. do 3 right. exists d. split; reflexivity.
Qed.

Lemma reason_present_iff_escalated_witness :
  snd (evaluate (Some (signal_dict "High" "Negative" 0.93))
                "nothing loads at all" 1)
  = Some "High urgency + Negative sentiment (confidence: 0.93)" /\
  ("High urgency + Negative sentiment (confidence: 0.93)"
     = "No classification provided" \/
   "High urgency + Negative sentiment (confidence: 0.93)"
     = "Legal threat detected" \/
   "High urgency + Negative sentiment (confidence: 0.93)"
     = "Refund demand detected" \/
   exists d,
     Some (signal_dict "High" "Negative" 0.93) = Some d /\
     "High urgency + Negative sentiment (confidence: 0.93)"
     = "High urgency + Negative sentiment (confidence: "
       ++ Py.format_2f (Dict.get (confidence d) 0.0%float) ++ ")").
Proof.
  split; [vm_compute; reflexivity|].
  apply (reason_present_iff_escalated
           (Some (signal_dict "High" "Negative" 0.93))
           "nothing loads at all" 1).
  vm_compute. reflexivity.
Defined.

(** X3. On a dict with at least one key the priority is "None",
    "Critical" or "High"; it is "Critical" exactly when the body
    mentions a legal-threat or refund-demand keyword.  "Medium" and
    "Low" are never returned. *)
Theorem priority_none_critical_or_high
        (d : classification) (body : string) (n : Z) :
  Dict.is_empty d = false ->
  exists p,
    get_escalation_priority (Some d) body n = Py.Ok p /\
    In p ["None"; "Critical"; "High"] /\
    (p = "Critical" <->
     mentions Settings.LEGAL_KEYWORDS body \/
     mentions Settings.REFUND_KEYWORDS body).
Proof.
  intros Hd. rewrite priority_of_dict, (evaluate_cases d body n Hd).
  pose proof (check_legal_threat_iff body) as Hl.
  pose proof (check_refund_demand_iff body) as Hr.
  destruct (check_legal_threat body);
    [eexists; split; [reflexivity|]; split; [simpl; tauto|];
     split; [intros _; left; now apply Hl | reflexivity]|].
  destruct (check_refund_demand body);
    [eexists; split; [reflexivity|]; split; [simpl; tauto|];
     split; [intros _; right; now apply Hr | reflexivity]|].
  assert (N : forall p : string,
             p <> "Critical" ->
             (p = "Critical" <->
              mentions Settings.LEGAL_KEYWORDS body \/
              mentions Settings.REFUND_KEYWORDS body)).
  { intros p Hp. split; [contradiction|].
    intros [H|H]; [apply Hl in H | apply Hr in H]; discriminate. }
  destruct (_ && _)%bool eqn:E.
  - destruct (PrimFloat.leb _ _); cbn [fst negb].
    + eexists; split; [reflexivity|]. split; [simpl; tauto|].
      apply N; discriminate.
    + eexists; split; [reflexivity|]. split; [simpl; tauto|].
      apply N; discriminate.
  - cbn [fst negb]. eexists; split; [reflexivity|].
    split; [simpl; tauto|]. apply N; discriminate.
Qed.

Lemma priority_none_critical_or_high_witness :
  exists p,
    get_escalation_priority
      (Some (signal_dict "Low" "Neutral" 0.7)) "a question" 7 = Py.Ok p /\
    In p ["None"; "Critical"; "High"].
Proof.
  destruct (priority_none_critical_or_high
              (signal_dict "Low" "Neutral" 0.7) "a question" 7 eq_refl)
    as (p & Hp & Hin & _).
  exists p. split; assumption.
Defined.

(** X4. On a dict with at least one key the contact count changes
    neither the decision, nor the reason, nor the priority: two calls of
    [format_escalation_summary] that differ only in the contact count
    return summaries that differ only in the echoed contact_count. *)
Theorem contact_count_only_echoed
        (d : classification) (body : string) (n m : Z) :
  Dict.is_empty d = false ->
  evaluate (Some d) body n = evaluate (Some d) body m /\
  get_escalation_priority (Some d) body n
    = get_escalation_priority (Some d) body m /\
  exists s,
    format_escalation_summary (Some d) body n = Py.Ok s /\
    d_contact_count (s_details s) = n /\
    format_escalation_summary (Some d) body m
      = Py.Ok {| should_escalate := should_escalate s;
                 reason := reason s;
                 priority := priority s;
                 s_details :=
                   {| d_urgency := d_urgency (s_details s);
                      d_sentiment := d_sentiment (s_details s);
                      d_confidence := d_confidence (s_details s);
                      d_contact_count := m;
                      has_legal_threat := has_legal_threat (s_details s);
                      has_refund_demand :=
                        has_refund_demand (s_details s) |} |}.
Proof.
  intros Hd.
  pose proof (evaluate_ignores_contact_count (Some d) body n m) as E.
  assert (P : get_escalation_priority (Some d) body n
              = get_escalation_priority (Some d) body m).
  { rewrite !priority_of_dict, <- E, (evaluate_cases d body n Hd).
    destruct (check_legal_threat body); [reflexivity|].
    destruct (check_refund_demand body); [reflexivity|].
    destruct (_ && _)%bool; [|reflexivity].
    destruct (PrimFloat.leb _ _); reflexivity. }
  split; [exact E|]. split; [exact P|].
  unfold format_escalation_summary. rewrite <- P, <- E.
  destruct (evaluate (Some d) body n) as [esc r].
  destruct (get_escalation_priority (Some d) body n) as [p|e] eqn:Hp.
  - cbn [Py.bind Dict.deref]. eexists. split; [reflexivity|].
    split; reflexivity.
  - rewrite priority_of_dict in Hp.
    repeat match type of Hp with
           | (if ?b then _ else _) = _ => destruct b
           end; discriminate.
Qed.

Lemma contact_count_only_echoed_witness :
  evaluate (Some (signal_dict "High" "Negative" 0.87)) "still stuck" 1
  = evaluate (Some (signal_dict "High" "Negative" 0.87)) "still stuck" 9.
Proof.
  apply (contact_count_only_echoed
           (signal_dict "High" "Negative" 0.87) "still stuck" 1 9).
  reflexivity.
Defined.

(** X5. On a dict with at least one key, a body that mentions a
    refund-demand keyword and no legal-threat keyword is escalated with
    reason "Refund demand detected" and priority "Critical", whatever
    the labels and the contact count. *)
Theorem refund_demand_always_critical
        (d : classification) (body : string) (n : Z) :
  Dict.is_empty d = false ->
  ~ mentions Settings.LEGAL_KEYWORDS body ->
  mentions Settings.REFUND_KEYWORDS body ->
  evaluate (Some d) body n = (true, Some "Refund demand detected") /\
  get_escalation_priority (Some d) body n = Py.Ok "Critical".
Proof.
  intros Hd Hl Hr. apply check_refund_demand_iff in Hr.
  assert (L : check_legal_threat body = false).
  { destruct (check_legal_threat body) eqn:E; [|reflexivity].
    now apply check_legal_threat_iff in E. }
  assert (E : evaluate (Some d) body n
              = (true, Some "Refund demand detected")).
  { rewrite (evaluate_cases d body n Hd), L, Hr. reflexivity. }
  split; [exact E|].
  rewrite priority_of_dict, E, L, Hr. reflexivity.
Qed.

Lemma refund_demand_always_critical_witness :
  evaluate (Some (signal_dict "Low" "Positive" 0.3))
           "Thanks! I am RETURNING to the lessons" 1
  = (true, Some "Refund demand detected").
Proof.
  apply refund_demand_always_critical.
  - reflexivity.
  - intros [kw [Hin Hc]]; simpl in Hin;
      repeat (destruct Hin as [<-|Hin]; [vm_compute in Hc; discriminate|]);
      contradiction.
  - exists "return". split; [simpl; tauto | vm_compute; reflexivity].
Defined.

(** X6. With urgency "High", sentiment "Negative" and a confidence of
    at least 0.90 (0.90 itself included), a body without legal-threat or
    refund-demand keywords is escalated with priority "High", and the
    reason prints the confidence to two decimals. *)
Theorem high_negative_confident_escalates
        (d : classification) (body : string) (n : Z) (c : float) :
  urgency d = Some "High" ->
  sentiment d = Some "Negative" ->
  confidence d = Some c ->
  PrimFloat.leb 0.90 c = true ->
  plain_body body ->
  evaluate (Some d) body n
    = (true, Some ("High urgency + Negative sentiment (confidence: "
                   ++ Py.format_2f c ++ ")")) /\
  get_escalation_priority (Some d) body n = Py.Ok "High".
Proof.
  intros Hu Hs Hc Hle Hb.
  assert (E : evaluate (Some d) body n
              = (true, Some ("High urgency + Negative sentiment (confidence: "
                             ++ Py.format_2f c ++ ")"))).
  { rewrite (evaluate_plain d body n _ _ _ Hu Hs Hc Hb).
    cbn [check_high_urgency check_angry_tone]. now rewrite Hle. }
  split; [exact E|].
  apply plain_body_checks in Hb as [L R].
  rewrite priority_of_dict, E, L, R, Hu, Hs. reflexivity.
Qed.

Lemma high_negative_confident_escalates_witness :
  evaluate (Some (signal_dict "High" "Negative" 0.9))
           "nothing works and I am angry" 1
  = (true, Some "High urgency + Negative sentiment (confidence: 0.90)").
Proof.
  apply (high_negative_confident_escalates
           (signal_dict "High" "Negative" 0.9)
           "nothing works and I am angry" 1 0.9); try reflexivity.
  split; intros [kw [Hin Hc]]; simpl in Hin;
    repeat (destruct Hin as [<-|Hin]; [vm_compute in Hc; discriminate|]);
    contradiction.
Defined.

(** X7. A dict that lacks the "urgency" key, or the "sentiment" key, or
    the "confidence" key (but holds some key) is never escalated on a
    body without legal-threat or refund-demand keywords: the defaults
    "Low", "Neutral" and 0.0 match no rule, and the priority is
    "None". *)
Theorem missing_key_never_escalates
        (d : classification) (body : string) (n : Z) :
  Dict.is_empty d = false ->
  urgency d = None \/ sentiment d = None \/ confidence d = None ->
  plain_body body ->
  evaluate (Some d) body n = (false, None) /\
  get_escalation_priority (Some d) body n = Py.Ok "None".
Proof.
  intros Hd Hk Hb. apply plain_body_checks in Hb as [L R].
  assert (E : evaluate (Some d) body n = (false, None)).
  { rewrite (evaluate_cases d body n Hd), L, R.
    destruct Hk as [H|[H|H]]; rewrite H; cbn [Dict.get].
    - reflexivity.
    - now rewrite andb_false_r.
    - destruct (_ && _)%bool; reflexivity. }
  split; [exact E|]. now rewrite priority_of_dict, E.
Qed.

Lemma missing_key_never_escalates_witness :
  evaluate
    (Some {| category := Some "Technical Issues"; sub_category := None;
             urgency := Some "High"; sentiment := Some "Negative";
             confidence := None; escalate_to_human := None |})
    "the player is broken" 4
  = (false, None).
Proof.
  apply missing_key_never_escalates.
  - reflexivity.
  - right; right; reflexivity.
  - split; intros [kw [Hin Hc]]; simpl in Hin;
      repeat (destruct Hin as [<-|Hin]; [vm_compute in Hc; discriminate|]);
      contradiction.
Defined.

End EscalationMore.

(** * Further properties of the classifier *)

Section ClassifierMore.

Import EmailClassifier.

Lemma any_in_none (kws : list string) (s : string) :
  (forall kw, In kw kws -> Py.contains kw s = false) ->
  Py.any_in kws s = false.
Proof.
  intros H. apply any_in_false. intros (kw & Hin & Hc).
  rewrite (H kw Hin) in Hc. discriminate.
Qed.

Lemma count_in_none (kws : list string) (s : string) :
  (forall kw, In kw kws -> Py.contains kw s = false) ->
  Py.count_in kws s = 0.
Proof.
  unfold Py.count_in. induction kws as [|k kws IH]; intros H;
    [reflexivity|].
  simpl. rewrite (H k (or_introl eq_refl)). apply IH.
  intros kw Hin. apply H. now right.
Qed.

(** X8. [classify] is case-insensitive: two emails whose subjects and
    whose bodies agree up to the case of their letters get the same
    classification record. *)
Theorem classify_case_insensitive (s s' b b' : string) :
  Py.lower s = Py.lower s' ->
  Py.lower b = Py.lower b' ->
  classify s b = classify s' b'.
Proof.
  intros Hs Hb. unfold classify.
  assert (E : Py.lower (s ++ " " ++ b) = Py.lower (s' ++ " " ++ b')).
  { rewrite (lower_app s), (lower_app s'), (lower_app " " b),
      (lower_app " " b'). now rewrite Hs, Hb. }
  now rewrite E.
Qed.

Lemma classify_case_insensitive_witness :
  classify "URGENT: Login" "It is BROKEN" = classify "urgent: login" "it is broken".
Proof. apply classify_case_insensitive; reflexivity. Defined.

(** X9. The record returned by [classify] holds all six keys; its
    category is one of the five configured ones, its urgency is "High",
    "Medium" or "Low" and its sentiment is "Positive", "Negative" or
    "Neutral". *)
Theorem classify_labels_in_range (s b : string) :
  exists cat sub u se c e,
    classify s b
    = {| category := Some cat; sub_category := Some sub;
         urgency := Some u; sentiment := Some se;
         confidence := Some c; escalate_to_human := Some e |} /\
    In cat ["Technical Issues"; "Payment & Billing"; "Course Content";
            "Account Management"; "General Queries"] /\
    In u ["High"; "Medium"; "Low"] /\
    In se ["Positive"; "Negative"; "Neutral"].
Proof.
  do 6 eexists. split; [reflexivity|]. split; [|split].
  - apply classify_category_cases.
  - unfold _classify_urgency.
    destruct (Py.any_in _ _); [simpl; tauto|].
    destruct (Py.any_in _ _); simpl; tauto.
  - unfold _classify_sentiment.
    destruct (Nat.ltb _ _); [simpl; tauto|].
    destruct (Nat.ltb _ _); simpl; tauto.
Qed.

(** X10. The four phrases that are at once high-urgency keywords and
    Technical Issues keywords ("cannot access", "broken", "not working",
    "error") force the urgency "High" and the escalate_to_human flag,
    and leave only "Payment & Billing" and "Technical Issues" as
    possible categories. *)
Theorem failure_words_force_high_urgency (s b : string) :
  (exists kw,
     In kw ["cannot access"; "broken"; "not working"; "error"] /\
     Py.contains kw (Py.lower (s ++ " " ++ b)) = true) ->
  urgency (classify s b) = Some "High" /\
  escalate_to_human (classify s b) = Some true /\
  (category (classify s b) = Some "Payment & Billing" \/
   category (classify s b) = Some "Technical Issues").
Proof.
  intros (kw & Hin & Hc). unfold classify.
  set (text := Py.lower (s ++ " " ++ b)) in *.
  cbn [urgency escalate_to_human category].
  assert (U : _classify_urgency text = "High").
  { unfold _classify_urgency, text. rewrite lower_idem. fold text.
    replace (Py.any_in Settings.HIGH_URGENCY_KEYWORDS text) with true;
      [reflexivity|].
    symmetry. apply any_in_iff. exists kw. split; [|exact Hc].
    simpl in *. intuition (subst; auto). }
  rewrite U. split; [reflexivity|]. split; [reflexivity|].
  unfold _classify_category, text. rewrite lower_idem. fold text.
  destruct (Py.any_in _ text); [now left|].
  replace (Py.any_in _ text) with true; [now right|].
  symmetry. apply any_in_iff. exists kw. split; [|exact Hc].
  simpl in *. intuition (subst; auto).
Qed.

Lemma failure_words_force_high_urgency_witness :
  urgency (classify "Player" "The video is Broken") = Some "High".
Proof.
  apply (failure_words_force_high_urgency "Player" "The video is Broken").
  exists "broken". split; [simpl; tauto | vm_compute; reflexivity].
Defined.

(** X11. A text that contains "login" is never labelled "Account
    Login": unless a payment keyword makes it "Payment & Billing", it
    is "Technical Issues" with sub-category "Platform Access", whose
    keyword list is tested first and also holds "login". *)
Theorem login_is_platform_access (s b : string) :
  Py.contains "login" (Py.lower (s ++ " " ++ b)) = true ->
  (category (classify s b) = Some "Payment & Billing" \/
   (category (classify s b) = Some "Technical Issues" /\
    sub_category (classify s b) = Some "Platform Access")) /\
  sub_category (classify s b) <> Some "Account Login".
Proof.
  intros Hc. unfold classify.
  set (text := Py.lower (s ++ " " ++ b)) in *.
  cbn [category sub_category].
  assert (L : forall kws, In "login" kws -> Py.any_in kws text = true).
  { intros kws Hin. apply any_in_iff. now exists "login". }
  assert (C : _classify_category text = "Payment & Billing" \/
              _classify_category text = "Technical Issues").
  { unfold _classify_category, text. rewrite lower_idem. fold text.
    destruct (Py.any_in _ text); [now left|].
    replace (Py.any_in _ text) with true; [now right|].
    symmetry. apply L. simpl; tauto. }
  destruct C as [C|C]; rewrite C.
  - split; [now left|].
    pose proof (classify_sub_category_declared "Payment & Billing" text
                  _ eq_refl) as Hin.
    intros [= E]. rewrite E in Hin. simpl in Hin.
    repeat (destruct Hin as [Hin|Hin]; [discriminate|]). exact Hin.
  - assert (S : _classify_sub_category "Technical Issues" text
                = "Platform Access").
    { unfold _classify_sub_category, text. rewrite lower_idem. fold text.
      cbn [Dict.lookup categories Settings.SUPPORT_CATEGORIES mapping
           String.eqb Ascii.eqb Bool.eqb first_sub_cat].
      replace (Py.any_in _ text) with true; [reflexivity|].
      symmetry. apply L. simpl; tauto. }
    rewrite S. split; [right; split; reflexivity | discriminate].
Qed.

Lemma login_is_platform_access_witness :
  sub_category (classify "Account login" "I forgot my password")
  <> Some "Account Login".
Proof.
  apply (login_is_platform_access "Account login" "I forgot my password").
  vm_compute. reflexivity.
Defined.

End ClassifierMore.

(** * The reply templates *)

Section Reply.

Import ReplyGenerator.

Lemma generic_reply_not_empty (sentiment : string) :
  _get_generic_reply sentiment <> "".
Proof.
  unfold _get_generic_reply.
  destruct (String.eqb sentiment "Negative"); [discriminate|].
  destruct (String.eqb sentiment "Positive"); discriminate.
Qed.


(** X12. The reply is never empty.  Its source is "template" exactly
    for the five configured categories and "fallback" for every other
    category string, in which case the text is the generic reply chosen
    by the sentiment. *)
Theorem reply_source_by_category (subject body category sentiment : string) :
  exists reply source,
    generate_with_fallback subject body category sentiment
      = (reply, source) /\
    reply <> "" /\
    (source = "template" <->
     In category (map fst Settings.SUPPORT_CATEGORIES)) /\
    (source = "fallback" <->
     ~ In category (map fst Settings.SUPPORT_CATEGORIES)) /\
    (source = "fallback" -> reply = _get_generic_reply sentiment).
Proof.
  unfold generate_with_fallback, _get_template_reply, templates.
  cbn [Dict.lookup].
  repeat (match goal with
          | |- context [String.eqb category ?k] =>
              destruct (String.eqb_spec category k) as [->|?]
          end;
          [do 2 eexists; split; [vm_compute; reflexivity|];
           split; [discriminate|];
           split; [split; [intros _; simpl; tauto | reflexivity]|];
           split; [split; [discriminate | intros H; exfalso; apply H;
                                          simpl; tauto]
                  |discriminate]
          |]).
  do 2 eexists. split; [reflexivity|].
  split; [apply generic_reply_not_empty|].
  assert (N : ~ In category (map fst Settings.SUPPORT_CATEGORIES)).
  { simpl. intros H. repeat (destruct H as [H|H]; [congruence|]).
    exact H. }
  split; [split; [discriminate | contradiction]|].
  split; [split; [intros _; exact N | reflexivity] | reflexivity].
Qed.

Lemma reply_source_by_category_witness :
  fst (generate_with_fallback "Hi" "there" "Spam" "Positive")
  = _get_generic_reply "Positive".
Proof.
  destruct (reply_source_by_category "Hi" "there" "Spam" "Positive")
    as (reply & source & E & _ & _ & _ & F).
  rewrite E. apply F.
  vm_compute in E. now injection E as _ <-.
Defined.



End Reply.

(** * The pipeline of app.py: classify, evaluate, draft *)

Section Pipeline.

Import EmailClassifier EscalationRules ReplyGenerator App.

Ltac ticket_fields :=
  cbn [TicketResponse.email_id TicketResponse.subject
       TicketResponse.category TicketResponse.sub_category
       TicketResponse.urgency TicketResponse.sentiment
       TicketResponse.confidence TicketResponse.status
       TicketResponse.escalate TicketResponse.escalation_reason
       TicketResponse.escalation_priority TicketResponse.draft_reply
       TicketResponse.processed_at].

Lemma classify_not_empty (s b : string) :
  Dict.is_empty (classify s b) = false.
Proof. reflexivity. Qed.

(** The four outcomes of the rules on a dict with at least one key. *)
Lemma decision_cases (d : classification) (body : string) (n : Z) :
  Dict.is_empty d = false ->
  let hn := andb (String.eqb (Dict.get (urgency d) "Low") "High")
                 (String.eqb (Dict.get (sentiment d) "Neutral") "Negative") in
  let c := Dict.get (confidence d) 0.0%float in
  (check_legal_threat body = true /\
   evaluate (Some d) body n = (true, Some "Legal threat detected") /\
   get_escalation_priority (Some d) body n = Py.Ok "Critical") \/
  (check_legal_threat body = false /\ check_refund_demand body = true /\
   evaluate (Some d) body n = (true, Some "Refund demand detected") /\
   get_escalation_priority (Some d) body n = Py.Ok "Critical") \/
  (check_legal_threat body = false /\ check_refund_demand body = false /\
   hn = true /\ PrimFloat.leb 0.90 c = true /\
   evaluate (Some d) body n
     = (true, Some ("High urgency + Negative sentiment (confidence: "
                    ++ Py.format_2f c ++ ")")) /\
   get_escalation_priority (Some d) body n = Py.Ok "High") \/
  (check_legal_threat body = false /\ check_refund_demand body = false /\
   andb hn (PrimFloat.leb 0.90 c) = false /\
   evaluate (Some d) body n = (false, None) /\
   get_escalation_priority (Some d) body n = Py.Ok "None").
Proof.
  intros Hd. cbv zeta.
  rewrite priority_of_dict, (evaluate_cases d body n Hd).
  destruct (check_legal_threat body); [left; repeat split|].
  destruct (check_refund_demand body); [right; left; repeat split|].
  destruct (_ && _)%bool.
  - destruct (PrimFloat.leb _ _).
    + right; right; left; repeat split.
    + right; right; right; repeat split.
  - right; right; right; repeat split.
Qed.

(** The confidence computed by the classifier passes the 0.90 test of
    rule 3 exactly for a specific category and a text of more than 50
    characters. *)
Lemma confident_iff (cat : string) (len : nat) :
  PrimFloat.leb 0.90 (clamped_confidence cat len) = true <->
  cat <> "General Queries" /\ 50 < len.
Proof.
  unfold clamped_confidence, unclamped_confidence, specificity_bonus,
    length_bonus.
  destruct (String.eqb_spec cat "General Queries") as [Hc|Hc];
    destruct (Nat.ltb_spec 100 len), (Nat.ltb_spec 50 len);
    vm_compute; split; try discriminate; try tauto;
    try (intros [? ?]; lia); try (intros _; split; [exact Hc | lia]).
Qed.

(** The ticket built from one email. *)
Lemma ticket_of_ok (email : EmailInput.t) (now : string)
      (shown : float -> float) :
  let s := EmailInput.subject email in
  let b := EmailInput.body email in
  let n := EmailInput.contact_count email in
  let c := classify s b in
  let esc := fst (evaluate (Some c) b n) in
  exists p,
    get_escalation_priority (Some c) b n = Py.Ok p /\
    ticket_of email now shown
    = Py.Ok
        {| TicketResponse.email_id := EmailInput.email_id email;
           TicketResponse.subject := s;
           TicketResponse.category :=
             Dict.get (category c) "General Queries";
           TicketResponse.sub_category :=
             Dict.get (sub_category c) "Unknown";
           TicketResponse.urgency := Dict.get (urgency c) "Low";
           TicketResponse.sentiment := Dict.get (sentiment c) "Neutral";
           TicketResponse.confidence :=
             shown (Dict.get (confidence c) 0.0%float);
           TicketResponse.status :=
             if esc then "Escalated to Human" else "Auto-Drafted";
           TicketResponse.escalate := esc;
           TicketResponse.escalation_reason :=
             snd (evaluate (Some c) b n);
           TicketResponse.escalation_priority := Some p;
           TicketResponse.draft_reply :=
             if negb esc
             then Some (fst (generate_with_fallback s b
                               (Dict.get (category c) "General Queries")
                               (Dict.get (sentiment c) "Neutral")))
             else None;
           TicketResponse.processed_at := now |}.
Proof.
  cbv zeta.
  set (c := classify (EmailInput.subject email) (EmailInput.body email)).
  destruct (decision_cases c (EmailInput.body email)
              (EmailInput.contact_count email) eq_refl)
    as [(_ & _ & Hp)|[(_ & _ & _ & Hp)|[(_ & _ & _ & _ & _ & Hp)
                                      |(_ & _ & _ & _ & Hp)]]];
    eexists; (split; [exact Hp|]);
    unfold ticket_of, format_escalation_summary; fold c; rewrite Hp;
    destruct (evaluate (Some c) _ _) as [esc r]; reflexivity.
Qed.

(** X14. [process_ticket] and [webhook_process_email] never answer
    with an HTTP error: for every email they return the same ticket,
    which echoes the email id, the subject and the clock reading and
    carries exactly the labels of [classify] (no default value is ever
    used). *)
Theorem process_ticket_succeeds (email : EmailInput.t) (now : string) :
  exists t,
    process_ticket email now = Ok200 t /\
    webhook_process_email email now = Ok200 t /\
    TicketResponse.email_id t = EmailInput.email_id email /\
    TicketResponse.subject t = EmailInput.subject email /\
    TicketResponse.processed_at t = now /\
    classify (EmailInput.subject email) (EmailInput.body email)
    = {| category := Some (TicketResponse.category t);
         sub_category := Some (TicketResponse.sub_category t);
         urgency := Some (TicketResponse.urgency t);
         sentiment := Some (TicketResponse.sentiment t);
         confidence := Some (TicketResponse.confidence t);
         escalate_to_human :=
           Some (orb (String.eqb (TicketResponse.urgency t) "High")
                     (PrimFloat.ltb (TicketResponse.confidence t) 0.5)) |}.
Proof.
  destruct (ticket_of_ok email now (fun c => c)) as (p & _ & Ht).
  unfold process_ticket, webhook_process_email. rewrite Ht.
  eexists. repeat split.
Qed.

(** X15. In the ticket of [process_ticket] the status is "Escalated to
    Human" exactly when escalate is true and "Auto-Drafted" otherwise; a
    draft reply is present exactly when the ticket is not escalated, a
    reason exactly when it is; the priority field is never null: it is
    the string "None" exactly when the ticket is not escalated. *)
Theorem ticket_fields_consistent (email : EmailInput.t) (now : string) :
  exists t,
    process_ticket email now = Ok200 t /\
    (TicketResponse.status t = "Escalated to Human" <->
     TicketResponse.escalate t = true) /\
    (TicketResponse.status t = "Auto-Drafted" <->
     TicketResponse.escalate t = false) /\
    (TicketResponse.draft_reply t = None <->
     TicketResponse.escalate t = true) /\
    (TicketResponse.escalation_reason t = None <->
     TicketResponse.escalate t = false) /\
    TicketResponse.escalation_priority t <> None /\
    (TicketResponse.escalation_priority t = Some "None" <->
     TicketResponse.escalate t = false).
Proof.
  destruct (ticket_of_ok email now (fun c => c)) as (p & Hp & Ht).
  unfold process_ticket. rewrite Ht. cbn [handle].
  eexists. split; [reflexivity|]. ticket_fields.
  set (c := classify _ _) in *.
  destruct (decision_cases c (EmailInput.body email)
              (EmailInput.contact_count email) eq_refl)
    as [(_ & E & Hq)|[(_ & _ & E & Hq)|[(_ & _ & _ & _ & E & Hq)
                                      |(_ & _ & _ & E & Hq)]]];
    rewrite Hq in Hp; injection Hp as <-; rewrite E; cbn [fst snd negb];
    repeat split; discriminate.
Qed.

(** X16. Through the pipeline a ticket is escalated exactly when its
    body mentions a legal-threat or refund-demand keyword, or its
    urgency is "High", its sentiment "Negative", its category not
    "General Queries" and the lower-cased "subject body" text longer
    than 50 characters (which is when the confidence reaches 0.90).  The
    priority is then "Critical" or "High": "Medium" and "Low" never
    leave the pipeline. *)
Theorem pipeline_escalates_iff (email : EmailInput.t) (now : string) :
  exists t,
    process_ticket email now = Ok200 t /\
    (TicketResponse.escalate t = true <->
     mentions Settings.LEGAL_KEYWORDS (EmailInput.body email) \/
     mentions Settings.REFUND_KEYWORDS (EmailInput.body email) \/
     (TicketResponse.urgency t = "High" /\
      TicketResponse.sentiment t = "Negative" /\
      TicketResponse.category t <> "General Queries" /\
      50 < String.length
             (Py.lower (EmailInput.subject email ++ " "
                        ++ EmailInput.body email)))) /\
    In (TicketResponse.escalation_priority t)
       [Some "None"; Some "Critical"; Some "High"].
Proof.
  destruct (ticket_of_ok email now (fun c => c)) as (p & Hp & Ht).
  unfold process_ticket. rewrite Ht. cbn [handle].
  eexists. split; [reflexivity|]. ticket_fields.
  pose proof (check_legal_threat_iff (EmailInput.body email)) as Hl.
  pose proof (check_refund_demand_iff (EmailInput.body email)) as Hr.
  pose proof (confident_iff
                (_classify_category
                   (Py.lower (EmailInput.subject email ++ " "
                              ++ EmailInput.body email)))
                (String.length
                   (Py.lower (EmailInput.subject email ++ " "
                              ++ EmailInput.body email)))) as Hc.
  rewrite <- calculate_confidence_formula in Hc.
  destruct (decision_cases
              (classify (EmailInput.subject email) (EmailInput.body email))
              (EmailInput.body email)
              (EmailInput.contact_count email) eq_refl)
    as [(L & E & Hq)|[(L & R & E & Hq)|[(L & R & H & C & E & Hq)
                                      |(L & R & H & E & Hq)]]];
    rewrite Hq in Hp; injection Hp as <-; rewrite E; cbn [fst];
    (split; [|simpl; tauto]).
  - split; [intros _; left; now apply Hl | reflexivity].
  - split; [intros _; right; left; now apply Hr | reflexivity].
  - split; [intros _ | reflexivity]. right; right.
    cbn [classify urgency sentiment confidence category Dict.get] in *.
    apply andb_true_iff in H as [H1 H2].
    apply String.eqb_eq in H1, H2. apply Hc in C. tauto.
  - split; [discriminate|].
    cbn [classify urgency sentiment confidence category Dict.get] in *.
    intros [M|[M|(H1 & H2 & H3 & H4)]].
    + apply Hl in M. congruence.
    + apply Hr in M. congruence.
    + rewrite H1, H2, !String.eqb_refl in H. cbn [andb] in H.
      assert (C : PrimFloat.leb 0.90
                    (_calculate_confidence
                       (Py.lower (EmailInput.subject email ++ " "
                                  ++ EmailInput.body email))
                       (_classify_category
                          (Py.lower (EmailInput.subject email ++ " "
                                     ++ EmailInput.body email))))
                  = true) by (apply Hc; tauto).
      congruence.
Qed.

(** X17. An email whose body contains "refund" (in any letter case) is
    classified "Payment & Billing" and is always escalated with priority
    "Critical" and without a draft reply. *)
Theorem refund_body_is_billing_and_critical
        (email : EmailInput.t) (now : string) :
  Py.contains "refund" (Py.lower (EmailInput.body email)) = true ->
  exists t,
    process_ticket email now = Ok200 t /\
    TicketResponse.category t = "Payment & Billing" /\
    TicketResponse.escalate t = true /\
    TicketResponse.status t = "Escalated to Human" /\
    TicketResponse.escalation_priority t = Some "Critical" /\
    TicketResponse.draft_reply t = None.
Proof.
  intros Hb.
  destruct (ticket_of_ok email now (fun c => c)) as (p & Hp & Ht).
  unfold process_ticket. rewrite Ht. cbn [handle].
  eexists. split; [reflexivity|]. ticket_fields.
  assert (R : check_refund_demand (EmailInput.body email) = true).
  { apply check_refund_demand_iff. exists "refund".
    split; [simpl; tauto | exact Hb]. }
  assert (Cat : _classify_category
                  (Py.lower (EmailInput.subject email ++ " "
                             ++ EmailInput.body email))
                = "Payment & Billing").
  { unfold _classify_category. rewrite lower_idem.
    replace (Py.any_in _ _) with true; [reflexivity|].
    symmetry. apply any_in_iff. exists "refund".
    split; [simpl; tauto | now apply keyword_of_body_in_text]. }
  destruct (decision_cases
              (classify (EmailInput.subject email) (EmailInput.body email))
              (EmailInput.body email)
              (EmailInput.contact_count email) eq_refl)
    as [(L & E & Hq)|[(L & R' & E & Hq)|[(L & R' & H & C & E & Hq)
                                       |(L & R' & H & E & Hq)]]];
    try congruence;
    rewrite Hq in Hp; injection Hp as <-; rewrite E;
    cbn [fst negb classify category Dict.get]; rewrite Cat;
    repeat split.
Qed.

Lemma refund_body_is_billing_and_critical_witness :
  exists t,
    process_ticket
      {| EmailInput.email_id := "42"; EmailInput.subject := "Order";
         EmailInput.body := "Please REFUND me";
         EmailInput.contact_count := 1 |} "2024-01-01T00:00:00"
      = Ok200 t /\
    TicketResponse.escalation_priority t = Some "Critical".
Proof.
  destruct (refund_body_is_billing_and_critical
              {| EmailInput.email_id := "42"; EmailInput.subject := "Order";
                 EmailInput.body := "Please REFUND me";
                 EmailInput.contact_count := 1 |} "2024-01-01T00:00:00")
    as (t & Ht & _ & _ & _ & Hp & _); [vm_compute; reflexivity|].
  exists t. split; assumption.
Defined.

(** For a configured category the template reply exists, is not
    empty and is what [generate_with_fallback] returns. *)
Lemma generate_for_configured (cat : string) :
  In cat (map fst Settings.SUPPORT_CATEGORIES) ->
  exists reply,
    _get_template_reply cat = Some reply /\
    reply <> "" /\
    forall s b se, generate_with_fallback s b cat se = (reply, "template").
Proof.
  simpl. intros H.
  repeat (destruct H as [<-|H];
          [eexists; split; [vm_compute; reflexivity|];
           split; [discriminate | intros; vm_compute; reflexivity]|]).
  contradiction.
Qed.

(** X18. A ticket that is not escalated always carries a non-empty
    draft taken from the template table: the reply depends on the
    category alone, and the generic replies chosen by sentiment are
    never used by the pipeline. *)
Theorem auto_draft_is_category_template
        (email : EmailInput.t) (now : string) :
  exists t,
    process_ticket email now = Ok200 t /\
    (TicketResponse.escalate t = false ->
     exists reply,
       TicketResponse.draft_reply t = Some reply /\
       reply <> "" /\
       _get_template_reply (TicketResponse.category t) = Some reply /\
       generate_with_fallback
         (EmailInput.subject email) (EmailInput.body email)
         (TicketResponse.category t) (TicketResponse.sentiment t)
       = (reply, "template")).
Proof.
  destruct (ticket_of_ok email now (fun c => c)) as (p & Hp & Ht).
  unfold process_ticket. rewrite Ht. cbn [handle].
  eexists. split; [reflexivity|]. ticket_fields.
  intros ->. cbn [negb classify category sentiment Dict.get].
  destruct (generate_for_configured _
              (classify_category_cases
                 (Py.lower (EmailInput.subject email ++ " "
                            ++ EmailInput.body email))))
    as (reply & Hr & Hne & Hg).
  exists reply. rewrite Hg. repeat split; assumption.
Qed.

Lemma auto_draft_is_category_template_witness :
  exists t reply,
    process_ticket
      {| EmailInput.email_id := "7"; EmailInput.subject := "Invoice";
         EmailInput.body := "Where can I download it?";
         EmailInput.contact_count := 1 |} "2024-01-01T00:00:00"
      = Ok200 t /\
    TicketResponse.draft_reply t = Some reply /\
    _get_template_reply "Payment & Billing" = Some reply.
Proof.
  destruct (auto_draft_is_category_template
              {| EmailInput.email_id := "7"; EmailInput.subject := "Invoice";
                 EmailInput.body := "Where can I download it?";
                 EmailInput.contact_count := 1 |} "2024-01-01T00:00:00")
    as (t & Ht & H).
  assert (E : TicketResponse.escalate t = false /\
              TicketResponse.category t = "Payment & Billing").
  { vm_compute in Ht. injection Ht as <-. split; reflexivity. }
  destruct E as [E C].
  destruct (H E) as (reply & Hd & _ & Hr & _).
  exists t, reply. rewrite C in Hr. repeat split; assumption.
Defined.

(** X19. An email (the empty one included) whose "subject body" text
    contains none of the configured keywords gets the default labels
    "General Queries", "Inquiry", "Low", "Neutral" with a confidence
    below 0.8; it is never escalated and is answered with the General
    Queries template. *)
Theorem keyword_free_email_defaults (email : EmailInput.t) (now : string) :
  (forall kws,
     In kws (map snd category_groups ++
             [Settings.HIGH_URGENCY_KEYWORDS;
              Settings.MEDIUM_URGENCY_KEYWORDS;
              Settings.POSITIVE_KEYWORDS; Settings.NEGATIVE_KEYWORDS;
              Settings.LEGAL_KEYWORDS; Settings.REFUND_KEYWORDS])%list ->
     forall kw, In kw kws ->
       Py.contains kw (Py.lower (EmailInput.subject email ++ " "
                                 ++ EmailInput.body email)) = false) ->
  exists t,
    process_ticket email now = Ok200 t /\
    TicketResponse.category t = "General Queries" /\
    TicketResponse.sub_category t = "Inquiry" /\
    TicketResponse.urgency t = "Low" /\
    TicketResponse.sentiment t = "Neutral" /\
    PrimFloat.ltb (TicketResponse.confidence t) 0.8 = true /\
    TicketResponse.escalate t = false /\
    TicketResponse.status t = "Auto-Drafted" /\
    TicketResponse.escalation_priority t = Some "None" /\
    TicketResponse.draft_reply t = _get_template_reply "General Queries".
Proof.
  intros Hfree.
  set (text := Py.lower (EmailInput.subject email ++ " "
                         ++ EmailInput.body email)) in *.
  assert (A : forall kws,
             In kws (map snd category_groups ++
                     [Settings.HIGH_URGENCY_KEYWORDS;
                      Settings.MEDIUM_URGENCY_KEYWORDS;
                      Settings.POSITIVE_KEYWORDS;
                      Settings.NEGATIVE_KEYWORDS;
                      Settings.LEGAL_KEYWORDS;
                      Settings.REFUND_KEYWORDS])%list ->
             Py.any_in kws text = false).
  { intros kws Hin. apply any_in_none. now apply Hfree. }
  assert (Cat : _classify_category text = "General Queries").
  { unfold _classify_category, text. rewrite lower_idem. fold text.
    rewrite !A by (simpl; tauto). reflexivity. }
  assert (U : _classify_urgency text = "Low").
  { unfold _classify_urgency, text. rewrite lower_idem. fold text.
    rewrite !A by (simpl; tauto). reflexivity. }
  assert (S : _classify_sentiment text = "Neutral").
  { unfold _classify_sentiment, text. rewrite lower_idem. fold text.
    rewrite !count_in_none by (apply Hfree; simpl; tauto). reflexivity. }
  assert (Cf : PrimFloat.ltb (_calculate_confidence text "General Queries")
                             0.8 = true).
  { rewrite calculate_confidence_formula.
    unfold clamped_confidence, unclamped_confidence, specificity_bonus,
      length_bonus.
    destruct (Nat.ltb 100 (String.length text)),
      (Nat.ltb 50 (String.length text)); vm_compute; reflexivity. }
  assert (L : check_legal_threat (EmailInput.body email) = false).
  { apply any_in_none. intros kw Hkw.
    destruct (Py.contains kw _) eqn:E; [|reflexivity].
    apply (keyword_of_body_in_text kw (EmailInput.subject email)) in E.
    fold text in E. rewrite Hfree with (kws := Settings.LEGAL_KEYWORDS) in E;
      [discriminate | simpl; tauto | exact Hkw]. }
  assert (R : check_refund_demand (EmailInput.body email) = false).
  { apply any_in_none. intros kw Hkw.
    destruct (Py.contains kw _) eqn:E; [|reflexivity].
    apply (keyword_of_body_in_text kw (EmailInput.subject email)) in E.
    fold text in E. rewrite Hfree with (kws := Settings.REFUND_KEYWORDS) in E;
      [discriminate | simpl; tauto | exact Hkw]. }
  destruct (ticket_of_ok email now (fun c => c)) as (p & Hp & Ht).
  unfold process_ticket. rewrite Ht. cbn [handle].
  eexists. split; [reflexivity|]. ticket_fields.
  destruct (decision_cases
              (classify (EmailInput.subject email) (EmailInput.body email))
              (EmailInput.body email)
              (EmailInput.contact_count email) eq_refl)
    as [(L' & E & Hq)|[(L' & R' & E & Hq)|[(L' & R' & H & C & E & Hq)
                                         |(L' & R' & H & E & Hq)]]];
    try congruence.
  - cbn [classify urgency sentiment Dict.get] in H. fold text in H.
    rewrite U in H. discriminate.
  - rewrite Hq in Hp; injection Hp as <-. rewrite E.
    cbn [fst negb classify category sub_category urgency sentiment
         confidence Dict.get]. fold text. rewrite Cat, U, S.
    repeat split; try assumption.
Qed.

Lemma keyword_free_email_defaults_witness :
  exists t,
    process_ticket
      {| EmailInput.email_id := "0"; EmailInput.subject := "";
         EmailInput.body := ""; EmailInput.contact_count := 1 |} "now"
      = Ok200 t /\
    TicketResponse.category t = "General Queries" /\
    TicketResponse.escalate t = false.
Proof.
  destruct (keyword_free_email_defaults
              {| EmailInput.email_id := "0"; EmailInput.subject := "";
                 EmailInput.body := ""; EmailInput.contact_count := 1 |}
              "now")
    as (t & Ht & Hc & _ & _ & _ & _ & He & _).
  - intros kws Hin kw Hkw. simpl in Hin.
    repeat (destruct Hin as [<-|Hin];
            [simpl in Hkw;
             repeat (destruct Hkw as [<-|Hkw]; [reflexivity|]);
             contradiction|]).
    contradiction.
  - exists t. repeat split; assumption.
Defined.

End Pipeline.

(** * The batch endpoint *)

Section Batch.

Import EmailClassifier EscalationRules ReplyGenerator App.

Lemma batch_results_length (emails : list EmailInput.t)
      (now : nat -> string) (k : nat) :
  List.length (batch_results emails now k) = List.length emails.
Proof.
  revert k. induction emails as [|e emails IH]; intros k; simpl;
    [reflexivity | now rewrite IH].
Qed.

(** One turn of the loop: never the error dict, and the ticket of
    [process_ticket] up to the rounding of the confidence. *)
Lemma batch_turn (email : EmailInput.t) (now : string) :
  exists t,
    process_ticket email now = Ok200 t /\
    ticket_of email now PyNum.round2
      = Py.Ok (with_rounded_confidence t).
Proof.
  destruct (ticket_of_ok email now (fun c => c)) as (p & Hp & Ht).
  destruct (ticket_of_ok email now PyNum.round2) as (q & Hq & Hr).
  rewrite Hp in Hq. injection Hq as <-.
  unfold process_ticket. rewrite Ht, Hr. cbn [handle].
  eexists. split; reflexivity.
Qed.

Lemma batch_results_nth (emails : list EmailInput.t) (now : nat -> string)
      (k i : nat) (email : EmailInput.t) :
  nth_error emails i = Some email ->
  exists t,
    process_ticket email (now (k + i)) = Ok200 t /\
    nth_error (batch_results emails now k) i
      = Some (Ticket (with_rounded_confidence t)).
Proof.
  revert k i. induction emails as [|e emails IH]; intros k i H.
  - destruct i; discriminate.
  - destruct i as [|i].
    + injection H as ->. rewrite Nat.add_0_r.
      destruct (batch_turn email (now k)) as (t & Hp & Ht).
      exists t. split; [exact Hp|]. simpl. now rewrite Ht.
    + simpl in H. destruct (IH (S k) i H) as (t & Hp & Hn).
      exists t. rewrite Nat.add_succ_r. split; [exact Hp | exact Hn].
Qed.

(** X20. [batch_process] never answers with an HTTP error and never
    stores an error dict: it returns one ticket per email, in order, and
    the ticket at position [i] is the one [process_ticket] returns for
    that email at the clock reading of turn [i], with its confidence
    rounded to two decimals. *)
Theorem batch_matches_process_ticket
        (emails : list EmailInput.t) (now : nat -> string) :
  exists r,
    batch_process emails now = Ok200 r /\
    batch_status r = "success" /\
    List.length (tickets r) = List.length emails /\
    errors_of (tickets r) = [] /\
    forall i email,
      nth_error emails i = Some email ->
      exists t,
        process_ticket email (now i) = Ok200 t /\
        nth_error (tickets r) i = Some (Ticket (with_rounded_confidence t)).
Proof.
  unfold batch_process. cbn [handle]. eexists.
  split; [reflexivity|]. cbn [batch_status tickets].
  split; [reflexivity|]. split; [apply batch_results_length|].
  split.
  - generalize 0 as k. induction emails as [|e emails IH]; intros k;
      [reflexivity|].
    simpl. destruct (batch_turn e (now k)) as (t & _ & Ht).
    rewrite Ht. apply IH.
  - intros i email H. apply (batch_results_nth emails now 0 i email H).
Qed.

Lemma batch_matches_process_ticket_witness :
  exists r t,
    batch_process
      [ {| EmailInput.email_id := "a"; EmailInput.subject := "Hi";
           EmailInput.body := "hello"; EmailInput.contact_count := 1 |} ]
      (fun _ => "now") = Ok200 r /\
    nth_error (tickets r) 0 = Some (Ticket (with_rounded_confidence t)).
Proof.
  destruct (batch_matches_process_ticket
              [ {| EmailInput.email_id := "a"; EmailInput.subject := "Hi";
                   EmailInput.body := "hello";
                   EmailInput.contact_count := 1 |} ]
              (fun _ => "now"))
    as (r & Hr & _ & _ & _ & Hn).
  destruct (Hn 0 _ eq_refl) as (t & _ & Ht).
  exists r, t. split; assumption.
Defined.

(** ** The breakdown dicts *)

Lemma incr_lookup_same (k : string) (d : list (string * Z)) :
  Dict.lookup k (incr k d) = Some (Dict.get (Dict.lookup k d) 0 + 1)%Z.
Proof.
  induction d as [|[k' v] d IH]; simpl.
  - now rewrite String.eqb_refl.
  - destruct (String.eqb k k') eqn:E; simpl; rewrite E; [reflexivity|].
    exact IH.
Qed.

Lemma incr_lookup_other (k k' : string) (d : list (string * Z)) :
  k' <> k -> Dict.lookup k' (incr k d) = Dict.lookup k' d.
Proof.
  intros Hne. induction d as [|[k0 v] d IH]; simpl.
  - apply String.eqb_neq in Hne. now rewrite Hne.
  - destruct (String.eqb_spec k k0) as [->|Hk]; simpl.
    + apply String.eqb_neq in Hne. now rewrite Hne.
    + now rewrite IH.
Qed.

Lemma incr_total (k : string) (d : list (string * Z)) :
  total_of (incr k d) = (total_of d + 1)%Z.
Proof.
  induction d as [|[k0 v] d IH]; simpl; [reflexivity|].
  destruct (String.eqb k k0); simpl; [lia | rewrite IH; lia].
Qed.

Lemma incr_keys (k k' : string) (d : list (string * Z)) :
  In k' (map fst (incr k d)) <-> k' = k \/ In k' (map fst d).
Proof.
  induction d as [|[k0 v] d IH]; simpl.
  - intuition.
  - destruct (String.eqb_spec k k0) as [->|Hk]; simpl.
    + intuition.
    + rewrite IH. intuition.
Qed.

Lemma incr_NoDup (k : string) (d : list (string * Z)) :
  NoDup (map fst d) -> NoDup (map fst (incr k d)).
Proof.
  induction d as [|[k0 v] d IH]; simpl; intros H.
  - constructor; [intros [] | constructor].
  - inversion H as [|? ? Hnin Hnd]; subst.
    destruct (String.eqb_spec k k0) as [->|Hk]; simpl.
    + now constructor.
    + constructor; [|now apply IH].
      rewrite incr_keys. intros [E|E]; [congruence | contradiction].
Qed.

Lemma tally_by_cons_ticket (f : TicketResponse.t -> string)
      (t : TicketResponse.t) (rest : list batch_entry)
      (d : list (string * Z)) :
  tally_by f (Ticket t :: rest) d = tally_by f rest (incr (f t) d).
Proof. reflexivity. Qed.

Lemma tally_by_cons_error (f : TicketResponse.t -> string)
      (id e : string) (rest : list batch_entry) (d : list (string * Z)) :
  tally_by f (Error id e :: rest) d = tally_by f rest d.
Proof. reflexivity. Qed.

Lemma count_label_cons_ticket (f : TicketResponse.t -> string) (k : string)
      (t : TicketResponse.t) (rest : list batch_entry) :
  count_label f k (Ticket t :: rest)
  = ((if String.eqb (f t) k then 1 else 0) + count_label f k rest)%Z.
Proof.
  unfold count_label. simpl.
  destruct (String.eqb (f t) k); simpl List.length; lia.
Qed.

Lemma count_label_nonneg (f : TicketResponse.t -> string) (k : string)
      (results : list batch_entry) :
  (0 <= count_label f k results)%Z.
Proof. unfold count_label. lia. Qed.

(** After the loop, the entry of a label is its entry before the loop
    plus the number of tickets that carry the label. *)
Lemma tally_by_lookup (f : TicketResponse.t -> string)
      (results : list batch_entry) (d : list (string * Z)) (k : string) :
  Dict.lookup k (tally_by f results d)
  = match Dict.lookup k d with
    | Some v => Some (v + count_label f k results)%Z
    | None => if (count_label f k results =? 0)%Z then None
              else Some (count_label f k results)
    end.
Proof.
  revert d. induction results as [|[t|id e] rest IH]; intros d.
  - unfold tally_by, count_label. simpl.
    destruct (Dict.lookup k d); [f_equal; lia | reflexivity].
  - rewrite tally_by_cons_ticket, IH, count_label_cons_ticket.
    pose proof (count_label_nonneg f k rest) as Hn.
    destruct (String.eqb_spec (f t) k) as [->|Hne].
    + rewrite incr_lookup_same.
      destruct (Dict.lookup k d) as [v|]; cbn [Dict.get].
      * f_equal; lia.
      * destruct (Z.eqb_spec (1 + count_label f k rest) 0); [lia|].
        f_equal; lia.
    + rewrite incr_lookup_other by congruence.
      destruct (Dict.lookup k d); [f_equal; lia | reflexivity].
  - rewrite tally_by_cons_error, IH. reflexivity.
Qed.

Lemma tally_by_total (f : TicketResponse.t -> string)
      (results : list batch_entry) (d : list (string * Z)) :
  total_of (tally_by f results d)
  = (total_of d + Z.of_nat (List.length (tickets_of results)))%Z.
Proof.
  revert d. induction results as [|[t|id e] rest IH]; intros d.
  - unfold tally_by. simpl. lia.
  - rewrite tally_by_cons_ticket, IH, incr_total.
    change (tickets_of (Ticket t :: rest)) with (t :: tickets_of rest).
    simpl List.length. lia.
  - rewrite tally_by_cons_error, IH. reflexivity.
Qed.

Lemma tally_by_NoDup (f : TicketResponse.t -> string)
      (results : list batch_entry) (d : list (string * Z)) :
  NoDup (map fst d) -> NoDup (map fst (tally_by f results d)).
Proof.
  revert d. induction results as [|[t|id e] rest IH]; intros d H.
  - exact H.
  - rewrite tally_by_cons_ticket. apply IH. now apply incr_NoDup.
  - rewrite tally_by_cons_error. now apply IH.
Qed.

Lemma tally_by_keys (f : TicketResponse.t -> string)
      (results : list batch_entry) (d : list (string * Z)) (k : string) :
  In k (map fst (tally_by f results d)) ->
  In k (map fst d) \/ exists t, In t (tickets_of results) /\ f t = k.
Proof.
  revert d. induction results as [|[t|id e] rest IH]; intros d H.
  - now left.
  - rewrite tally_by_cons_ticket in H. apply IH in H as [H|(t' & Hin & E)].
    + apply incr_keys in H as [->|H]; [|now left].
      right. exists t. split; [now left | reflexivity].
    + right. exists t'. split; [now right | exact E].
  - rewrite tally_by_cons_error in H. apply IH in H as [H|(t' & Hin & E)].
    + now left.
    + right. exists t'. split; assumption.
Qed.

(** The three dicts evolve independently in the loop. *)
Lemma fold_tally_split (results : list batch_entry)
      (u s c : list (string * Z)) :
  fold_left tally results (u, s, c)
  = (tally_by TicketResponse.urgency results u,
     tally_by TicketResponse.sentiment results s,
     tally_by TicketResponse.category results c).
Proof.
  revert u s c. induction results as [|[t|id e] rest IH]; intros u s c.
  - reflexivity.
  - simpl fold_left. rewrite IH. reflexivity.
  - simpl fold_left. rewrite IH. reflexivity.
Qed.

Lemma summarize_fields (results : list batch_entry) :
  summarize results
  = {| SummaryReport.total_tickets := Z.of_nat (List.length results);
       SummaryReport.auto_drafted :=
         (Z.of_nat (List.length results) - count_escalated results)%Z;
       SummaryReport.escalated := count_escalated results;
       SummaryReport.escalation_rate :=
         if (0 <? Z.of_nat (List.length results))%Z
         then PyNum.format_1f
                (PyNum.true_div (count_escalated results)
                                (Z.of_nat (List.length results)) * 100)%float
              ++ "%"
         else "0%";
       SummaryReport.urgency_breakdown :=
         tally_by TicketResponse.urgency results [];
       SummaryReport.sentiment_breakdown :=
         tally_by TicketResponse.sentiment results [];
       SummaryReport.category_breakdown :=
         tally_by TicketResponse.category results [] |}.
Proof. unfold summarize. now rewrite fold_tally_split. Qed.

Lemma entries_partition (results : list batch_entry) :
  List.length results
  = List.length (filter TicketResponse.escalate (tickets_of results))
    + List.length (filter (fun t => negb (TicketResponse.escalate t))
                          (tickets_of results))
    + List.length (errors_of results) /\
  List.length (filter entry_escalate results)
  = List.length (filter TicketResponse.escalate (tickets_of results)).
Proof.
  induction results as [|[t|id e] rest [IH1 IH2]].
  - split; reflexivity.
  - change (tickets_of (Ticket t :: rest)) with (t :: tickets_of rest).
    change (errors_of (Ticket t :: rest)) with (errors_of rest).
    simpl. destruct (TicketResponse.escalate t); simpl; lia.
  - change (tickets_of (Error id e :: rest)) with (tickets_of rest).
    change (errors_of (Error id e :: rest))
      with (Error id e :: errors_of rest).
    simpl. lia.
Qed.

(** X21. For any list of results, total_tickets is the number of
    entries and escalated the number of tickets whose escalate flag is
    set; auto_drafted is total minus escalated, so it counts the tickets
    that were not escalated and also every error entry. *)
Theorem summary_counts (results : list batch_entry) :
  SummaryReport.total_tickets (summarize results)
    = Z.of_nat (List.length results) /\
  SummaryReport.escalated (summarize results)
    = Z.of_nat (List.length (filter TicketResponse.escalate
                                    (tickets_of results))) /\
  SummaryReport.auto_drafted (summarize results)
    = (Z.of_nat (List.length
                   (filter (fun t => negb (TicketResponse.escalate t))
                           (tickets_of results)))
       + Z.of_nat (List.length (errors_of results)))%Z /\
  (SummaryReport.escalated (summarize results)
   + SummaryReport.auto_drafted (summarize results)
   = SummaryReport.total_tickets (summarize results))%Z /\
  (0 <= SummaryReport.escalated (summarize results)
     <= SummaryReport.total_tickets (summarize results))%Z.
Proof.
  rewrite summarize_fields.
  cbn [SummaryReport.total_tickets SummaryReport.escalated
       SummaryReport.auto_drafted].
  unfold count_escalated.
  destruct (entries_partition results) as [H1 H2]. rewrite H2.
  repeat split; lia.
Qed.

(** X22. For any list of results, each breakdown dict holds, for every
    label, exactly the number of tickets carrying it (and no entry for
    a label that no ticket carries); its keys are pairwise distinct and
    its values add up to the number of tickets, error entries not
    counted. *)
Theorem breakdown_counts_labels (results : list batch_entry) :
  counts_labels TicketResponse.urgency results
    (SummaryReport.urgency_breakdown (summarize results)) /\
  counts_labels TicketResponse.sentiment results
    (SummaryReport.sentiment_breakdown (summarize results)) /\
  counts_labels TicketResponse.category results
    (SummaryReport.category_breakdown (summarize results)).
Proof.
  rewrite summarize_fields.
  cbn [SummaryReport.urgency_breakdown SummaryReport.sentiment_breakdown
       SummaryReport.category_breakdown].
  unfold counts_labels.
  repeat split;
    try (intros k; now rewrite tally_by_lookup);
    try (apply tally_by_NoDup; constructor);
    now rewrite tally_by_total.
Qed.

Lemma classify_ranges (s b : string) :
  In (Dict.get (category (classify s b)) "General Queries")
     (map fst Settings.SUPPORT_CATEGORIES) /\
  In (Dict.get (urgency (classify s b)) "Low") ["High"; "Medium"; "Low"] /\
  In (Dict.get (sentiment (classify s b)) "Neutral")
     ["Positive"; "Negative"; "Neutral"].
Proof.
  cbn [classify category urgency sentiment Dict.get]. split; [|split].
  - apply classify_category_cases.
  - unfold _classify_urgency.
    destruct (Py.any_in _ _); [simpl; tauto|].
    destruct (Py.any_in _ _); simpl; tauto.
  - unfold _classify_sentiment.
    destruct (Nat.ltb _ _); [simpl; tauto|].
    destruct (Nat.ltb _ _); simpl; tauto.
Qed.

Lemma batch_results_tickets (emails : list EmailInput.t)
      (now : nat -> string) (k : nat) :
  List.length (tickets_of (batch_results emails now k))
    = List.length emails /\
  forall t, In t (tickets_of (batch_results emails now k)) ->
    In (TicketResponse.category t) (map fst Settings.SUPPORT_CATEGORIES) /\
    In (TicketResponse.urgency t) ["High"; "Medium"; "Low"] /\
    In (TicketResponse.sentiment t) ["Positive"; "Negative"; "Neutral"].
Proof.
  revert k. induction emails as [|e emails IH]; intros k.
  - split; [reflexivity | intros t []].
  - destruct (IH (S k)) as [IH1 IH2].
    destruct (ticket_of_ok e (now k) PyNum.round2) as (p & _ & Ht).
    cbn [batch_results]. rewrite Ht.
    match goal with
    | |- context [tickets_of (Ticket ?t :: ?rest)] =>
        change (tickets_of (Ticket t :: rest)) with (t :: tickets_of rest)
    end.
    split; [simpl List.length; now rewrite IH1|].
    intros t [<-|Hin]; [|now apply IH2].
    cbn [TicketResponse.category TicketResponse.urgency
         TicketResponse.sentiment].
    apply classify_ranges.
Qed.

(** X23. In the summary of a batch every email is counted once: the
    total and the values of each breakdown add up to the number of
    emails, and the keys of the breakdowns are labels the classifier can
    produce ("High", "Medium", "Low"; "Positive", "Negative", "Neutral";
    the five configured categories), never "Unknown". *)
Theorem batch_summary_counts_every_email
        (emails : list EmailInput.t) (now : nat -> string) :
  exists r,
    batch_process emails now = Ok200 r /\
    SummaryReport.total_tickets (summary r)
      = Z.of_nat (List.length emails) /\
    total_of (SummaryReport.urgency_breakdown (summary r))
      = Z.of_nat (List.length emails) /\
    total_of (SummaryReport.sentiment_breakdown (summary r))
      = Z.of_nat (List.length emails) /\
    total_of (SummaryReport.category_breakdown (summary r))
      = Z.of_nat (List.length emails) /\
    (forall k, In k (map fst (SummaryReport.urgency_breakdown (summary r)))
               -> In k ["High"; "Medium"; "Low"]) /\
    (forall k, In k (map fst (SummaryReport.sentiment_breakdown (summary r)))
               -> In k ["Positive"; "Negative"; "Neutral"]) /\
    (forall k, In k (map fst (SummaryReport.category_breakdown (summary r)))
               -> In k (map fst Settings.SUPPORT_CATEGORIES)).
Proof.
  unfold batch_process. cbn [handle]. eexists.
  split; [reflexivity|]. cbn [summary].
  rewrite summarize_fields.
  cbn [SummaryReport.total_tickets SummaryReport.urgency_breakdown
       SummaryReport.sentiment_breakdown SummaryReport.category_breakdown].
  destruct (batch_results_tickets emails now 0) as [Hlen Hin].
  split; [now rewrite batch_results_length|].
  rewrite !tally_by_total, Hlen.
  do 3 (split; [reflexivity|]).
  repeat split; intros k Hk;
    apply tally_by_keys in Hk as [[]|(t & Ht & <-)];
    now apply Hin.
Qed.

Lemma batch_summary_counts_every_email_witness :
  exists r,
    batch_process
      [ {| EmailInput.email_id := "a"; EmailInput.subject := "Hi";
           EmailInput.body := "I need help soon";
           EmailInput.contact_count := 1 |} ]
      (fun _ => "now") = Ok200 r /\
    In "Medium" ["High"; "Medium"; "Low"].
Proof.
  destruct (batch_summary_counts_every_email
              [ {| EmailInput.email_id := "a"; EmailInput.subject := "Hi";
                   EmailInput.body := "I need help soon";
                   EmailInput.contact_count := 1 |} ]
              (fun _ => "now"))
    as (r & Hr & _ & _ & _ & _ & Hu & _).
  exists r. split; [exact Hr|]. apply Hu.
  vm_compute in Hr. injection Hr as <-. simpl. tauto.
Defined.

(** X24. The confidence shown in a batch is that of [process_ticket]
    rounded to two decimals, hence one of 0.7, 0.75, 0.8, 0.85, 0.9 and
    0.95.  The rounding changes the value in one case only: a "General
    Queries" email whose lower-cased "subject body" text has more than
    100 characters, whose confidence is the float 0.7 + 0.1 (just below
    0.8) in [process_ticket] and 0.8 in the batch. *)
Theorem batch_confidence_two_decimals
        (email : EmailInput.t) (now : string) :
  exists t,
    process_ticket email now = Ok200 t /\
    In (TicketResponse.confidence (with_rounded_confidence t))
       [0.7; 0.75; 0.8; 0.85; 0.9; 0.95]%float /\
    (if andb (String.eqb (TicketResponse.category t) "General Queries")
             (Nat.ltb 100
                (String.length
                   (Py.lower (EmailInput.subject email ++ " "
                              ++ EmailInput.body email))))
     then TicketResponse.confidence t = (0.7 + 0.1)%float /\
          TicketResponse.confidence (with_rounded_confidence t)
            = 0.8%float /\
          PrimFloat.ltb (TicketResponse.confidence t) 0.8 = true
     else TicketResponse.confidence (with_rounded_confidence t)
            = TicketResponse.confidence t).
Proof.
  destruct (ticket_of_ok email now (fun c => c)) as (p & _ & Ht).
  unfold process_ticket. rewrite Ht. cbn [handle].
  eexists. split; [reflexivity|].
  cbn [with_rounded_confidence TicketResponse.confidence
       TicketResponse.category classify category confidence Dict.get].
  rewrite calculate_confidence_formula.
  unfold clamped_confidence, unclamped_confidence, specificity_bonus,
    length_bonus.
  set (len := String.length
                (Py.lower (EmailInput.subject email ++ " "
                           ++ EmailInput.body email))).
  destruct (String.eqb (_classify_category _) "General Queries"),
    (Nat.ltb 100 len), (Nat.ltb 50 len); vm_compute; auto 12.
Qed.

End Batch.
